(** * Superset guest-token relay (main.py): a shallow embedding

    The FastAPI application of [main.py] is embedded as Rocq functions.
    Python [str] values are Rocq strings whose characters are read as the
    code points 0..255; Python values that travel through JSON are the
    type [json]; code that talks to Superset runs in a small monad that
    threads the list of upstream calls made so far and may raise. *)

From Stdlib Require Import ZArith List String Ascii Bool Lia.
From Stdlib Require Import Numbers.DecimalString.
Import ListNotations.

Local Open Scope string_scope.
Local Open Scope Z_scope.
Local Set Warnings "-register-all".

(** ** Python strings *)

Module PyStr.

Definition code (c : ascii) : N := N_of_ascii c.

(** [str.isspace] on one character, for the code points below 256. *)
Definition isspace (c : ascii) : bool :=
  let n := code c in
  ((9 <=? n) && (n <=? 13) || (28 <=? n) && (n <=? 32)
   || (n =? 133) || (n =? 160))%N.

Fixpoint lstrip (s : string) : string :=
  match s with
  | String c r => if isspace c then lstrip r else s
  | EmptyString => EmptyString
  end.

Fixpoint rstrip (s : string) : string :=
  match s with
  | String c r =>
      match rstrip r with
      | EmptyString => if isspace c then EmptyString else String c EmptyString
      | r' => String c r'
      end
  | EmptyString => EmptyString
  end.

(** [s.strip()] *)
Definition strip (s : string) : string := rstrip (lstrip s).

(** [s.count(c)] for a one-character needle. *)
Fixpoint count (c : ascii) (s : string) : nat :=
  match s with
  | String d r => (if Ascii.eqb d c then 1 else 0) + count c r
  | EmptyString => 0
  end%nat.

(** [c in s] for a one-character needle. *)
Definition mem (c : ascii) (s : string) : bool := negb (Nat.eqb (count c s) 0).

(** [s.split(c)]: every occurrence of [c] separates two (possibly empty)
    pieces; the result has [s.count(c) + 1] elements. *)
Fixpoint split (c : ascii) (s : string) : list string :=
  match s with
  | EmptyString => [EmptyString]
  | String d r =>
      if Ascii.eqb d c then EmptyString :: split c r
      else match split c r with
           | p :: ps => String d p :: ps
           | [] => [String d EmptyString]
           end
  end.

(** [s.split(c, 1)], as the pair before and after the first [c]. *)
Fixpoint split1 (c : ascii) (s : string) : string * string :=
  match s with
  | EmptyString => (EmptyString, EmptyString)
  | String d r =>
      if Ascii.eqb d c then (EmptyString, r)
      else let (a, b) := split1 c r in (String d a, b)
  end.

Definition lower_char (c : ascii) : ascii :=
  let n := code c in
  if ((65 <=? n) && (n <=? 90)
      || (192 <=? n) && (n <=? 222) && negb (n =? 215))%N
  then ascii_of_N (n + 32) else c.

(** [s.lower()] *)
Fixpoint lower (s : string) : string :=
  match s with
  | String c r => String (lower_char c) (lower r)
  | EmptyString => EmptyString
  end.

(** [s.endswith(c)] for a one-character suffix. *)
Fixpoint endswith (c : ascii) (s : string) : bool :=
  match s with
  | EmptyString => false
  | String d EmptyString => Ascii.eqb d c
  | String _ r => endswith c r
  end.

(** [s[:-1]] *)
Fixpoint drop_last (s : string) : string :=
  match s with
  | EmptyString => EmptyString
  | String _ EmptyString => EmptyString
  | String d r => String d (drop_last r)
  end.

(** [needle in s] *)
Fixpoint contains (needle s : string) : bool :=
  prefix needle s
  || match s with
     | String _ r => contains needle r
     | EmptyString => false
     end.

(** The double-quote character and a string put between two of them. *)
Definition dquote : ascii := Eval cbv in ascii_of_N 34.
Definition quoted (s : string) : string :=
  String dquote (s ++ String dquote EmptyString).

(** Every character of [s] is white space. *)
Fixpoint all_space (s : string) : bool :=
  match s with
  | String c r => isspace c && all_space r
  | EmptyString => true
  end.

(** Truth value of a string: [bool(s)]. *)
Definition nonempty (s : string) : bool :=
  match s with EmptyString => false | _ => true end.

(** [str(n)] for an [int]. *)
Definition of_int (z : Z) : string := NilZero.string_of_int (Z.to_int z).

End PyStr.

(** ** Python values that come from, or go into, JSON *)

Inductive json : Type :=
| JNull
| JBool (b : bool)
| JInt (z : Z)
| JFloat (nonzero : bool) (shown : string)
    (* a float, by the two observations the program can make of it:
       its truth value and its [str()] *)
| JStr (s : string)
| JArr (items : list json)
| JObj (fields : list (string * json)).

Definition dict : Type := list (string * json).

Fixpoint assoc (key : string) (d : dict) : option json :=
  match d with
  | (k, v) :: r => if String.eqb k key then Some v else assoc key r
  | [] => None
  end.

(** Truth value of a Python value, as tested by [if not v]. *)
Definition truthy (v : json) : bool :=
  match v with
  | JNull => false
  | JBool b => b
  | JInt z => negb (z =? 0)
  | JFloat nz _ => nz
  | JStr s => PyStr.nonempty s
  | JArr l => match l with [] => false | _ => true end
  | JObj d => match d with [] => false | _ => true end
  end.

Definition type_name (v : json) : string :=
  match v with
  | JNull => "NoneType"
  | JBool _ => "bool"
  | JInt _ => "int"
  | JFloat _ _ => "float"
  | JStr _ => "str"
  | JArr _ => "list"
  | JObj _ => "dict"
  end.

Module PyRepr.

Definition hex_digit (n : N) : ascii :=
  ascii_of_N (if (n <? 10)%N then 48 + n else 87 + n).

Definition printable (n : N) : bool :=
  ((32 <=? n) && (n <? 127) || (161 <=? n) && negb (n =? 173))%N.

Definition escape_char (quote c : ascii) : string :=
  let n := PyStr.code c in
  if Ascii.eqb c quote || Ascii.eqb c "\" then String "\" (String c "")
  else if (n =? 9)%N then "\t"
  else if (n =? 10)%N then "\n"
  else if (n =? 13)%N then "\r"
  else if printable n then String c ""
  else String "\" (String "x"
         (String (hex_digit (n / 16)) (String (hex_digit (n mod 16)) ""))).

Fixpoint escape (quote : ascii) (s : string) : string :=
  match s with
  | String c r => escape_char quote c ++ escape quote r
  | EmptyString => EmptyString
  end.

(** [repr(s)] for a string. *)
Definition of_str (s : string) : string :=
  let q : ascii :=
    if PyStr.mem "'" s && negb (PyStr.mem PyStr.dquote s)
    then PyStr.dquote else "'"%char in
  String q (escape q s) ++ String q "".

Fixpoint repr (v : json) : string :=
  match v with
  | JNull => "None"
  | JBool true => "True"
  | JBool false => "False"
  | JInt z => PyStr.of_int z
  | JFloat _ shown => shown
  | JStr s => of_str s
  | JArr l =>
      "[" ++ (fix items (l : list json) : string :=
                match l with
                | [] => ""
                | [x] => repr x
                | x :: r => repr x ++ ", " ++ items r
                end) l ++ "]"
  | JObj d =>
      "{" ++ (fix items (d : list (string * json)) : string :=
                match d with
                | [] => ""
                | [(k, x)] => of_str k ++ ": " ++ repr x
                | (k, x) :: r => of_str k ++ ": " ++ repr x ++ ", " ++ items r
                end) d ++ "}"
  end.

(** [str(v)], which is what an f-string field [{v}] renders. *)
Definition str (v : json) : string :=
  match v with
  | JStr s => s
  | _ => repr v
  end.

End PyRepr.

(** ** Exceptions and the monad of upstream calls *)

Inductive exn : Type :=
| HTTPException (status_code : Z) (detail : string)
| PyError (name : string) (msg : string).
    (* any other Python exception: its class name and its [str()] *)

Definition exn_str (e : exn) : string :=
  match e with
  | HTTPException status_code detail =>
      PyStr.of_int status_code ++ ": " ++ detail
  | PyError _ msg => msg
  end.

Inductive Result (A : Type) : Type :=
| Ok (a : A)
| Raise (e : exn).
Arguments Ok {A} a.
Arguments Raise {A} e.

Inductive Method := GET | POST.

(** One call of [session.get] / [session.post], with the keyword arguments
    the program passes. *)
Record Request : Type := mkRequest {
  method : Method;
  url : string;
  req_json : option json;
  req_headers : list (string * json);
  timeout : Z;
  verify : bool
}.

(** A [requests.Response], by what the program reads from it: [.status_code],
    [.text] (which [http_error_detail] guards against raising) and [.json()]
    ([inl msg] when decoding raises with message [msg]). *)
Record Response : Type := mkResponse {
  resp_status : Z;
  resp_text : option string;
  resp_json : string + json
}.

Inductive Outcome : Type :=
| Responded (r : Response)
| Failed (name msg : string).   (* the call itself raises, e.g. ConnectionError *)

(** A [requests.Session] together with the Superset server behind it: what a
    call yields, given the calls already made. *)
Definition Session : Type := list Request -> Request -> Outcome.

(** Computations that may call upstream: they extend the list of calls made
    so far and return a value or raise. *)
Definition IO (A : Type) : Type := list Request -> Result A * list Request.

Definition ret {A} (a : A) : IO A := fun log => (Ok a, log).
Definition raise {A} (e : exn) : IO A := fun log => (Raise e, log).
Definition bind {A B} (m : IO A) (k : A -> IO B) : IO B :=
  fun log =>
    match m log with
    | (Ok a, log') => k a log'
    | (Raise e, log') => (Raise e, log')
    end.
(** [try: m  except ... as e: h e] *)
Definition try_except {A} (m : IO A) (h : exn -> IO A) : IO A :=
  fun log =>
    match m log with
    | (Ok a, log') => (Ok a, log')
    | (Raise e, log') => h e log'
    end.
Definition lift {A} (r : Result A) : IO A := fun log => (r, log).

Declare Scope io_scope.
Delimit Scope io_scope with io.
Notation "x <- m ;; k" := (bind m (fun x => k))
  (at level 61, m at next level, right associativity) : io_scope.
Local Open Scope io_scope.

Definition request (session : Session) (rq : Request) : IO Response :=
  fun log =>
    (match session log rq with
     | Responded r => Ok r
     | Failed name msg => Raise (PyError name msg)
     end, (log ++ [rq])%list).

Definition session_post (session : Session) (url : string) (payload : json)
    (headers : list (string * json)) (timeout : Z) (verify : bool) : IO Response :=
  request session (mkRequest POST url (Some payload) headers timeout verify).

Definition session_get (session : Session) (url : string)
    (headers : list (string * json)) (timeout : Z) (verify : bool) : IO Response :=
  request session (mkRequest GET url None headers timeout verify).

(** [r.json()] *)
Definition response_json (r : Response) : Result json :=
  match resp_json r with
  | inr v => Ok v
  | inl msg => Raise (PyError "JSONDecodeError" msg)
  end.

(** [v.get(key)]: [None] for a missing key, [AttributeError] when [v] is not
    a dict. *)
Definition py_get (v : json) (key : string) : Result json :=
  match v with
  | JObj d => Ok (match assoc key d with Some x => x | None => JNull end)
  | _ => Raise (PyError "AttributeError"
                  ("'" ++ type_name v ++ "' object has no attribute 'get'"))
  end.

Definition py_opt_str (o : option string) : json :=
  match o with Some s => JStr s | None => JNull end.

(** ** Utility functions of main.py *)

Definition http_error_detail (resp : Response) : string :=
  match resp_text resp with
  | Some t => t
  | None => "status=" ++ PyStr.of_int (resp_status resp)
  end.

(** The headers [{"Authorization": f"Bearer {access_token}"}] *)
Definition bearer (access_token : json) : list (string * json) :=
  [("Authorization", JStr ("Bearer " ++ PyRepr.str access_token))].

Definition login (session : Session) (base : string) (username password : json)
    (provider : string) (verify : bool) : IO json :=
  r <- session_post session (base ++ "/api/v1/security/login")
         (JObj [("username", username); ("password", password);
                ("provider", JStr provider); ("refresh", JBool false)])
         [] 20 verify ;;
  if negb (resp_status r =? 200) then
    raise (HTTPException 400
             ("Login failed (" ++ PyStr.of_int (resp_status r) ++ "): "
              ++ http_error_detail r))
  else
    data <- lift (response_json r) ;;
    token <- lift (py_get data "access_token") ;;
    if negb (truthy token) then
      raise (HTTPException 400 "Login succeeded but no access_token returned")
    else ret token.

Definition get_csrf (session : Session) (base : string) (access_token : json)
    (verify : bool) : IO json :=
  r <- session_get session (base ++ "/api/v1/security/csrf_token/")
         (bearer access_token) 20 verify ;;
  if negb (resp_status r =? 200) then
    raise (HTTPException 400
             ("Fetching CSRF failed (" ++ PyStr.of_int (resp_status r) ++ "): "
              ++ http_error_detail r))
  else
    data <- lift (response_json r) ;;
    csrf <- lift (py_get data "result") ;;
    if negb (truthy csrf) then
      raise (HTTPException 400 "CSRF response missing 'result'")
    else ret csrf.

(** ** urllib.parse.urlparse

    The library function, written out after the CPython sources (3.11 and
    3.12 with [_check_bracketed_netloc]) for strings of code points below
    256 (for these [_checknetloc] never raises), with the checks of
    [ipaddress] on a bracketed host.  [None] stands for the [ValueError]
    the function raises. *)

Module Urllib.

Record ParseResult : Type := mkParseResult {
  scheme : string;
  netloc : string;
  path : string;
  params : string;
  query : string;
  fragment : string
}.

Definition is_alpha (c : ascii) : bool :=
  let n := PyStr.code c in
  ((65 <=? n) && (n <=? 90) || (97 <=? n) && (n <=? 122))%N.

Definition is_digit (c : ascii) : bool :=
  let n := PyStr.code c in ((48 <=? n) && (n <=? 57))%N.

(** membership in [scheme_chars] *)
Definition is_scheme_char (c : ascii) : bool :=
  is_alpha c || is_digit c
  || Ascii.eqb c "+" || Ascii.eqb c "-" || Ascii.eqb c ".".

Fixpoint all_chars (p : ascii -> bool) (s : string) : bool :=
  match s with
  | String c r => p c && all_chars p r
  | EmptyString => true
  end.

(** [url.lstrip(_WHATWG_C0_CONTROL_OR_SPACE)] *)
Fixpoint lstrip_c0 (s : string) : string :=
  match s with
  | String c r => if (PyStr.code c <=? 32)%N then lstrip_c0 r else s
  | EmptyString => EmptyString
  end.

(** removal of [_UNSAFE_URL_BYTES_TO_REMOVE]: tab, carriage return, newline *)
Fixpoint remove_unsafe (s : string) : string :=
  match s with
  | String c r =>
      let n := PyStr.code c in
      if ((n =? 9) || (n =? 13) || (n =? 10))%N then remove_unsafe r
      else String c (remove_unsafe r)
  | EmptyString => EmptyString
  end.

(** [_splitnetloc(url, 0)] on the text after the two slashes *)
Fixpoint splitnetloc (s : string) : string * string :=
  match s with
  | EmptyString => (EmptyString, EmptyString)
  | String c r =>
      if Ascii.eqb c "/" || Ascii.eqb c "?" || Ascii.eqb c "#"
      then (EmptyString, s)
      else let (a, b) := splitnetloc r in (String c a, b)
  end.

(** the text after the last [c], or all of [s] when there is none:
    [s.rpartition(c)[2]] *)
Fixpoint after_last (c : ascii) (s : string) : string :=
  match s with
  | EmptyString => EmptyString
  | String d r =>
      if PyStr.mem c r then after_last c r
      else if Ascii.eqb d c then r else s
  end.

Definition is_hex (c : ascii) : bool :=
  let n := PyStr.code c in
  is_digit c || ((65 <=? n) && (n <=? 70) || (97 <=? n) && (n <=? 102))%N.

(** [int(s)] for a text of decimal digits *)
Fixpoint decimal (acc : N) (s : string) : N :=
  match s with
  | String c r => decimal (10 * acc + (PyStr.code c - 48)) r
  | EmptyString => acc
  end.

(** [ipaddress.IPv4Address._parse_octet] accepts the text *)
Definition octet_ok (s : string) : bool :=
  PyStr.nonempty s && all_chars is_digit s && Nat.leb (length s) 3
  && (String.eqb s "0" || negb (prefix "0" s))
  && (decimal 0 s <=? 255)%N.

(** [ipaddress.IPv4Address] accepts the text *)
Definition ipv4_ok (s : string) : bool :=
  negb (PyStr.mem "/" s)
  && Nat.eqb (List.length (PyStr.split "." s)) 4
  && forallb octet_ok (PyStr.split "." s).

(** [ipaddress.IPv6Address._parse_hextet] accepts the text *)
Definition hextet_ok (s : string) : bool :=
  PyStr.nonempty s && Nat.leb (length s) 4 && all_chars is_hex s.

(** the number of empty pieces among [l] *)
Definition empties (l : list string) : nat :=
  List.length (filter (fun s => negb (PyStr.nonempty s)) l).

(** the number of pieces of [l] before its first empty one *)
Fixpoint first_empty (l : list string) : nat :=
  match l with
  | s :: r => if PyStr.nonempty s then S (first_empty r) else 0
  | [] => 0
  end.

(** [ipaddress.IPv6Address._ip_int_from_str] accepts the text *)
Definition ipv6_groups_ok (addr : string) : bool :=
  let parts0 := PyStr.split ":" addr in
  let tail := List.last parts0 EmptyString in
  let parts :=
    if PyStr.mem "." tail then (removelast parts0 ++ ["0"; "0"])%list
    else parts0 in
  let n := List.length parts in
  let inner := firstn (n - 2) (skipn 1 parts) in
  let head_empty := negb (PyStr.nonempty (hd EmptyString parts)) in
  let tail_empty := negb (PyStr.nonempty (List.last parts EmptyString)) in
  PyStr.nonempty addr && Nat.leb 3 (List.length parts0)
  && (negb (PyStr.mem "." tail) || ipv4_ok tail)
  && Nat.leb n 9
  && match empties inner with
     | O =>
         Nat.eqb n 8 && negb head_empty && negb tail_empty
         && forallb hextet_ok parts
     | S O =>
         let skip_index := S (first_empty inner) in
         let parts_hi := if head_empty then skip_index - 1 else skip_index in
         let parts_lo :=
           if tail_empty then n - skip_index - 1 - 1 else n - skip_index - 1 in
         negb (head_empty && negb (Nat.eqb parts_hi 0))
         && negb (tail_empty && negb (Nat.eqb parts_lo 0))
         && Nat.leb (parts_hi + parts_lo) 7
         && forallb hextet_ok (firstn parts_hi parts)
         && forallb hextet_ok (skipn (n - parts_lo) parts)
     | _ => false
     end%nat.

(** [ipaddress.IPv6Address] accepts the text, which may end with a scope *)
Definition ipv6_ok (host : string) : bool :=
  let (addr, scope) := PyStr.split1 "%" host in
  negb (PyStr.mem "/" host)
  && negb (PyStr.mem "%" host
           && (negb (PyStr.nonempty scope) || PyStr.mem "%" scope))
  && ipv6_groups_ok addr.

Fixpoint drop_hex (s : string) : string :=
  match s with
  | String c r => if is_hex c then drop_hex r else s
  | EmptyString => EmptyString
  end.

(** [_check_bracketed_host] accepts the host: an IPvFuture address, which
    matches [v[a-fA-F0-9]+\..+], or an IPv6 address *)
Definition bracketed_host_ok (hostname : string) : bool :=
  match hostname with
  | String "v" r =>
      match drop_hex r with
      | String "." (String c t) =>
          negb (String.eqb (drop_hex r) r)
          && all_chars (fun x => negb (PyStr.code x =? 10)%N) (String c t)
      | _ => false
      end
  | _ => ipv6_ok hostname
  end.

(** [_check_bracketed_netloc] accepts the network location *)
Definition bracketed_netloc_ok (netloc : string) : bool :=
  let hostname_and_port := after_last "@" netloc in
  let (before_bracket, bracketed) := PyStr.split1 "[" hostname_and_port in
  if PyStr.mem "[" hostname_and_port then
    let (hostname, port) := PyStr.split1 "]" bracketed in
    negb (PyStr.nonempty before_bracket)
    && negb (PyStr.nonempty port && negb (prefix ":" port))
    && bracketed_host_ok hostname
  else bracketed_host_ok (fst (PyStr.split1 ":" hostname_and_port)).

Definition uses_params : list string :=
  [""; "ftp"; "hdl"; "prospero"; "http"; "imap"; "https"; "shttp"; "rtsp";
   "rtspu"; "sip"; "sips"; "mms"; "sftp"; "tel"].

(** [_splitparams(url)[0]] *)
Fixpoint splitparams_path (url : string) : string :=
  match url with
  | EmptyString => EmptyString
  | String c r =>
      if PyStr.mem "/" r then String c (splitparams_path r)
      else if Ascii.eqb c "/" then String c (fst (PyStr.split1 ";" r))
      else fst (PyStr.split1 ";" url)
  end.

Definition urlparse (url : string) : option ParseResult :=
  let url := remove_unsafe (lstrip_c0 url) in
  let (scheme, url) :=
    let (head, tail) := PyStr.split1 ":" url in
    if PyStr.mem ":" url && PyStr.nonempty head
       && match head with String c _ => is_alpha c | EmptyString => false end
       && all_chars is_scheme_char head
    then (PyStr.lower head, tail) else (EmptyString, url) in
  let (netloc, url) :=
    match url with
    | String "/" (String "/" rest) => splitnetloc rest
    | _ => (EmptyString, url)
    end in
  if negb (Bool.eqb (PyStr.mem "[" netloc) (PyStr.mem "]" netloc)) then None
  else if PyStr.mem "[" netloc && negb (bracketed_netloc_ok netloc) then None
  else
    let (url, fragment) := PyStr.split1 "#" url in
    let (url, query) := PyStr.split1 "?" url in
    let uses := existsb (String.eqb scheme) uses_params && PyStr.mem ";" url in
    Some (mkParseResult scheme netloc
            (if uses then splitparams_path url else url)
            (if uses then
               substring (S (length (splitparams_path url))) (length url) url
             else EmptyString)
            query fragment).

End Urllib.

(** ** Pydantic models *)

Inductive field (A : Type) : Type :=
| Omitted
| Given (a : A).
Arguments Omitted {A}.
Arguments Given {A} a.

(** The JSON body of [POST /generate-token] once it passed validation:
    [dashboard] is required, the two optional members are left out, given as
    [null] ([Given None]) or given a value. *)
Record RequestBody : Type := mkRequestBody {
  body_dashboard : string;
  body_username : field (option string);
  body_rls : field (option (list dict))
}.

Record GuestTokenRequest : Type := mkGuestTokenRequest {
  dashboard : string;
  username : option string;
  rls : option (list dict)
}.

(** Construction of the model from a body: a member left out takes the
    field's default, [Field("guest_via_api")] and
    [Field(default_factory=list)]. *)
Definition parse_GuestTokenRequest (b : RequestBody) : GuestTokenRequest :=
  {| dashboard := body_dashboard b;
     username := match body_username b with
                 | Omitted => Some "guest_via_api"
                 | Given v => v
                 end;
     rls := match body_rls b with
            | Omitted => Some []
            | Given v => v
            end |}.

Record GuestTokenResponse : Type := mkGuestTokenResponse {
  token : string;
  dashboard_uuid : string;
  message : string
}.

(** [GuestTokenResponse(token=..., dashboard_uuid=..., message=...)]: the
    two values read from upstream must be strings (the text of the
    library's validation error is shortened). *)
Definition new_GuestTokenResponse (token dashboard_uuid : json) (message : string)
  : Result GuestTokenResponse :=
  match token, dashboard_uuid with
  | JStr t, JStr u => Ok (mkGuestTokenResponse t u message)
  | _, _ => Raise (PyError "ValidationError"
                     "validation error for GuestTokenResponse")
  end.

Definition GuestTokenResponse_json (r : GuestTokenResponse) : json :=
  JObj [("token", JStr (token r)); ("dashboard_uuid", JStr (dashboard_uuid r));
        ("message", JStr (message r))].

(** ** Configuration *)

(** The attributes of class [Config].  [RLS_JSON] holds the text read from
    the environment until [validate] replaces it by the parsed value. *)
Record Config : Type := mkConfig {
  SUPERSET_URL : option string;
  SUPERSET_USERNAME : option string;
  SUPERSET_PASSWORD : option string;
  SUPERSET_LOGIN_PROVIDER : string;
  VERIFY_SSL : bool;
  RLS_JSON : json
}.

(** The process environment, as [os.getenv] reads it. *)
Definition Env : Type := string -> option string.

Definition getenv (env : Env) (name default : string) : string :=
  match env name with
  | Some v => v
  | None => default
  end.

(** The class body of [Config], evaluated once at import. *)
Definition Config_class (env : Env) : Config :=
  {| SUPERSET_URL := env "SUPERSET_URL";
     SUPERSET_USERNAME := env "SUPERSET_USERNAME";
     SUPERSET_PASSWORD := env "SUPERSET_PASSWORD";
     SUPERSET_LOGIN_PROVIDER := getenv env "SUPERSET_LOGIN_PROVIDER" "db";
     VERIFY_SSL :=
       existsb (String.eqb (PyStr.lower (getenv env "VERIFY_SSL" "true")))
         ["1"; "true"; "yes"; "y"; "on"];
     RLS_JSON := JStr (getenv env "RLS_JSON" "[]") |}.

(** [not v] for an attribute read with [os.getenv]. *)
Definition unset (v : option string) : bool :=
  match v with
  | Some s => negb (PyStr.nonempty s)
  | None => true
  end.

Definition set_RLS_JSON (cls : Config) (r : json) : Config :=
  {| SUPERSET_URL := SUPERSET_URL cls;
     SUPERSET_USERNAME := SUPERSET_USERNAME cls;
     SUPERSET_PASSWORD := SUPERSET_PASSWORD cls;
     SUPERSET_LOGIN_PROVIDER := SUPERSET_LOGIN_PROVIDER cls;
     VERIFY_SSL := VERIFY_SSL cls;
     RLS_JSON := r |}.

(** What [json.loads] does with a text: it returns the decoded value, raises
    [json.JSONDecodeError], or raises another exception ([RecursionError]
    for a text nested too deeply, [ValueError] for an integer of too many
    digits), which [validate] does not catch. *)
Inductive Decoding : Type :=
| Decoded (v : json)
| DecodeError (msg : string)              (* [JSONDecodeError], by its [str()] *)
| DecoderRaised (name : string) (msg : string).  (* any other exception *)

Section Relay.

(** The two library functions the program calls on caller-supplied text. *)
Variable urlparse : string -> option Urllib.ParseResult.
Variable json_loads : string -> Decoding.

(** [Config.validate()], returning the class as the call leaves it. *)
Definition validate (cls : Config) : Result unit * Config :=
  if unset (SUPERSET_URL cls) || unset (SUPERSET_USERNAME cls)
     || unset (SUPERSET_PASSWORD cls)
  then (Raise (HTTPException 500
                 "Missing environment variables. Set SUPERSET_URL, SUPERSET_USERNAME, SUPERSET_PASSWORD in .env"),
        cls)
  else
    let parsed :=
      match RLS_JSON cls with
      | JStr s =>
          match json_loads s with
          | Decoded v => Ok (set_RLS_JSON cls v)
          | DecodeError e =>
              Raise (HTTPException 500 ("RLS_JSON is not valid JSON: " ++ e))
          | DecoderRaised name msg => Raise (PyError name msg)
          end
      | _ => Ok cls
      end in
    match parsed with
    | Raise e => (Raise e, cls)
    | Ok cls' =>
        match RLS_JSON cls' with
        | JArr _ => (Ok tt, cls')
        | _ => (Raise (HTTPException 500
                         ("RLS_JSON must be a JSON array, e.g. [] or [{"
                          ++ PyStr.quoted "clause" ++ ":"
                          ++ PyStr.quoted "tenant_id='acme'" ++ "}]")),
                cls')
        end
    end.

(** The dependency [get_config]. *)
Definition get_config (cls : Config) : Result Config * Config :=
  match validate cls with
  | (Ok _, cls') => (Ok cls', cls')
  | (Raise e, cls') => (Raise e, cls')
  end.

Definition last_opt {A} (l : list A) : option A :=
  match rev l with
  | x :: _ => Some x
  | [] => None
  end.

Definition extract_candidate_from_url (dash_arg : string) : string :=
  match urlparse dash_arg with
  | Some p =>
      if PyStr.nonempty (Urllib.scheme p) && PyStr.nonempty (Urllib.netloc p)
      then
        let parts := filter PyStr.nonempty (PyStr.split "/" (Urllib.path p)) in
        match last_opt parts with
        | Some seg => seg
        | None => dash_arg
        end
      else dash_arg
  | None => dash_arg
  end.

Definition resolve_dashboard_uuid (session : Session) (base : string)
    (access_token : json) (dash_arg : string) (verify : bool) : IO json :=
  let candidate := PyStr.strip (extract_candidate_from_url dash_arg) in
  if Nat.eqb (length candidate) 36 && Nat.eqb (PyStr.count "-" candidate) 4
  then ret (JStr candidate)
  else
    r <- session_get session (base ++ "/api/v1/dashboard/" ++ candidate)
           (bearer access_token) 20 verify ;;
    if negb (resp_status r =? 200) then
      raise (HTTPException 400
               ("Could not resolve dashboard UUID from '" ++ dash_arg ++ "' ("
                ++ PyStr.of_int (resp_status r) ++ "): " ++ http_error_detail r))
    else
      body <- lift (response_json r) ;;
      result <- lift (py_get body "result") ;;
      let data := if truthy result then result else JObj [] in
      uuid <- lift (py_get data "uuid") ;;
      if negb (truthy uuid) then
        raise (HTTPException 400
                 ("Dashboard lookup returned no 'uuid' for '" ++ dash_arg ++ "'."))
      else ret uuid.

Definition generate_guest_token (session : Session) (base : string)
    (access_token csrf_token dashboard_uuid rls username : json) (verify : bool)
  : IO json :=
  let payload :=
    JObj [("resources", JArr [JObj [("type", JStr "dashboard");
                                    ("id", dashboard_uuid)]]);
          ("user", JObj [("username", username)]);
          ("rls", rls)] in
  let headers :=
    [("Authorization", JStr ("Bearer " ++ PyRepr.str access_token));
     ("X-CSRFToken", csrf_token);
     ("Referer", JStr base)] in
  r <- session_post session (base ++ "/api/v1/security/guest_token/")
         payload headers 20 verify ;;
  if negb (resp_status r =? 200) then
    raise (HTTPException 400
             ("guest_token request failed (" ++ PyStr.of_int (resp_status r)
              ++ "): " ++ http_error_detail r))
  else
    data <- lift (response_json r) ;;
    token <- lift (py_get data "token") ;;
    if negb (truthy token) then
      raise (HTTPException 400 "guest_token response missing 'token'")
    else ret token.

(** ** API endpoints *)

(** [config.SUPERSET_URL[:-1] if config.SUPERSET_URL.endswith("/") else
    config.SUPERSET_URL] *)
Definition base_url (config : Config) : Result string :=
  match SUPERSET_URL config with
  | Some u => Ok (if PyStr.endswith "/" u then PyStr.drop_last u else u)
  | None => Raise (PyError "AttributeError"
                     "'NoneType' object has no attribute 'endswith'")
  end.

(** What the two [except] clauses of an endpoint raise for [e]:
    [HTTPException] is re-raised, anything else becomes a status-500
    [HTTPException]. *)
Definition surfaced (e : exn) : exn :=
  match e with
  | HTTPException _ _ => e
  | PyError _ _ => HTTPException 500 ("Internal server error: " ++ exn_str e)
  end.

(** [request.rls if request.rls is not None else config.RLS_JSON] *)
Definition selected_rls (request : GuestTokenRequest) (config : Config) : json :=
  match rls request with
  | Some l => JArr (map JObj l)
  | None => RLS_JSON config
  end.

Definition generate_guest_token_endpoint (session : Session)
    (request : GuestTokenRequest) (config : Config) : IO GuestTokenResponse :=
  try_except
    (base <- lift (base_url config) ;;
     let rls := selected_rls request config in
     access_token <- login session base
                       (py_opt_str (SUPERSET_USERNAME config))
                       (py_opt_str (SUPERSET_PASSWORD config))
                       (SUPERSET_LOGIN_PROVIDER config) (VERIFY_SSL config) ;;
     csrf_token <- get_csrf session base access_token (VERIFY_SSL config) ;;
     dashboard_uuid <- resolve_dashboard_uuid session base access_token
                         (dashboard request) (VERIFY_SSL config) ;;
     token <- generate_guest_token session base access_token csrf_token
                dashboard_uuid rls (py_opt_str (username request))
                (VERIFY_SSL config) ;;
     lift (new_GuestTokenResponse token dashboard_uuid
             "Guest token generated successfully"))
    (fun e => raise (surfaced e)).

Definition get_dashboard_info (session : Session) (dashboard_id : string)
    (config : Config) : IO json :=
  try_except
    (base <- lift (base_url config) ;;
     access_token <- login session base
                       (py_opt_str (SUPERSET_USERNAME config))
                       (py_opt_str (SUPERSET_PASSWORD config))
                       (SUPERSET_LOGIN_PROVIDER config) (VERIFY_SSL config) ;;
     dashboard_uuid <- resolve_dashboard_uuid session base access_token
                         dashboard_id (VERIFY_SSL config) ;;
     ret (JObj [("dashboard_id", JStr dashboard_id);
                ("dashboard_uuid", dashboard_uuid);
                ("message", JStr "Dashboard UUID resolved successfully")]))
    (fun e => raise (surfaced e)).

Definition root : json :=
  JObj [("message", JStr "Superset Guest Token Generator API");
        ("version", JStr "1.0.0"); ("docs", JStr "/docs");
        ("health", JStr "/health")].

Definition options_generate_token : json := JObj [("message", JStr "OK")].

Definition health_check : json :=
  JObj [("status", JStr "healthy"); ("message", JStr "API is running")].

(** The routes registered on [app]. *)
Inductive HttpRequest : Type :=
| GET_root
| OPTIONS_generate_token
| GET_health
| POST_generate_token (body : RequestBody)
| GET_dashboard (dashboard_id : string).

(** One inbound request: the route's dependencies are resolved, then its
    function runs.  The state is the class [Config] and the list of upstream
    calls; the result is the value the route returns or the exception that
    leaves it. *)
Definition app (session : Session) (rq : HttpRequest) (cls : Config)
    (log : list Request) : Result json * Config * list Request :=
  match rq with
  | GET_root => (Ok root, cls, log)
  | OPTIONS_generate_token => (Ok options_generate_token, cls, log)
  | GET_health => (Ok health_check, cls, log)
  | POST_generate_token body =>
      match get_config cls with
      | (Raise e, cls') => (Raise e, cls', log)
      | (Ok config, cls') =>
          match generate_guest_token_endpoint session
                  (parse_GuestTokenRequest body) config log with
          | (Ok r, log') => (Ok (GuestTokenResponse_json r), cls', log')
          | (Raise e, log') => (Raise e, cls', log')
          end
      end
  | GET_dashboard dashboard_id =>
      match get_config cls with
      | (Raise e, cls') => (Raise e, cls', log)
      | (Ok config, cls') =>
          match get_dashboard_info session dashboard_id config log with
          | (Ok v, log') => (Ok v, cls', log')
          | (Raise e, log') => (Raise e, cls', log')
          end
      end
  end.

End Relay.

(** ** Error handlers *)

(** [http_exception_handler(request, exc)], given the two attributes of
    [exc]. *)
Definition http_exception_handler (status_code : Z) (detail : string) : json :=
  JObj [("error", JStr "HTTP Error"); ("detail", JStr detail)].

Definition general_exception_handler (exc : exn) : json :=
  JObj [("error", JStr "Internal Server Error"); ("detail", JStr (exn_str exc))].

(** The value that the handler registered for the class of [exc] returns
    for it.  It is a dict, not a response object; what the framework does
    with such a value is not part of this file. *)
Definition handle_exception (exc : exn) : json :=
  match exc with
  | HTTPException status_code detail => http_exception_handler status_code detail
  | PyError _ _ => general_exception_handler exc
  end.

(** ** The upstream call of each step *)

Definition login_request (base : string) (username password : json)
    (provider : string) (verify : bool) : Request :=
  mkRequest POST (base ++ "/api/v1/security/login")
    (Some (JObj [("username", username); ("password", password);
                 ("provider", JStr provider); ("refresh", JBool false)]))
    [] 20 verify.

Definition csrf_request (base : string) (access_token : json) (verify : bool)
  : Request :=
  mkRequest GET (base ++ "/api/v1/security/csrf_token/") None
    (bearer access_token) 20 verify.

Definition lookup_request (base : string) (access_token : json)
    (candidate : string) (verify : bool) : Request :=
  mkRequest GET (base ++ "/api/v1/dashboard/" ++ candidate) None
    (bearer access_token) 20 verify.

Definition issue_request (base : string)
    (access_token csrf_token dashboard_uuid rls username : json) (verify : bool)
  : Request :=
  mkRequest POST (base ++ "/api/v1/security/guest_token/")
    (Some (JObj [("resources", JArr [JObj [("type", JStr "dashboard");
                                           ("id", dashboard_uuid)]]);
                 ("user", JObj [("username", username)]);
                 ("rls", rls)]))
    [("Authorization", JStr ("Bearer " ++ PyRepr.str access_token));
     ("X-CSRFToken", csrf_token);
     ("Referer", JStr base)]
    20 verify.

(** The UUID heuristic of [resolve_dashboard_uuid]. *)
Definition uuid_shaped (candidate : string) : bool :=
  Nat.eqb (length candidate) 36 && Nat.eqb (PyStr.count "-" candidate) 4.

(** The candidate [resolve_dashboard_uuid] works on. *)
Definition candidate_of (urlparse : string -> option Urllib.ParseResult)
    (dash_arg : string) : string :=
  PyStr.strip (extract_candidate_from_url urlparse dash_arg).

(** ** Sample inputs: an environment, request bodies and mocked upstreams *)

Module Samples.
Import PyStr.

(** A mocked upstream that answers the n-th call of a run with the n-th
    scripted outcome, and refuses the connection once the script is over. *)
Definition scripted (outcomes : list Outcome) : Session :=
  fun log _ =>
    nth (List.length log) outcomes (Failed "ConnectionError" "connection refused").

Definition answer (status : Z) (text : string) (body : json) : Outcome :=
  Responded (mkResponse status (Some text) (inr body)).

Definition uuid : string := "11111111-2222-3333-4444-555555555555".

(** [{"access_token": "a1"}], [{"result": "c1"}],
    [{"result": {"uuid": ...}}] and [{"token": "gt-xyz"}] *)
Definition login_ok : Outcome :=
  answer 200 ("{" ++ quoted "access_token" ++ ": " ++ quoted "a1" ++ "}")
    (JObj [("access_token", JStr "a1")]).
Definition csrf_ok : Outcome :=
  answer 200 ("{" ++ quoted "result" ++ ": " ++ quoted "c1" ++ "}")
    (JObj [("result", JStr "c1")]).
Definition lookup_ok : Outcome :=
  answer 200
    ("{" ++ quoted "result" ++ ": {" ++ quoted "uuid" ++ ": " ++ quoted uuid ++ "}}")
    (JObj [("result", JObj [("uuid", JStr uuid)])]).
Definition issue_ok : Outcome :=
  answer 200 ("{" ++ quoted "token" ++ ": " ++ quoted "gt-xyz" ++ "}")
    (JObj [("token", JStr "gt-xyz")]).

Definition superset : Session := scripted [login_ok; csrf_ok; lookup_ok; issue_ok].

(** [{"message": "Not authorized"}] and [{"message": "Forbidden"}] *)
Definition unauthorized : Outcome :=
  answer 401 ("{" ++ quoted "message" ++ ": " ++ quoted "Not authorized" ++ "}")
    (JObj [("message", JStr "Not authorized")]).
Definition forbidden : Outcome :=
  answer 403 ("{" ++ quoted "message" ++ ": " ++ quoted "Forbidden" ++ "}")
    (JObj [("message", JStr "Forbidden")]).

(** [{"message": "Not found"}] *)
Definition not_found : Outcome :=
  answer 404 ("{" ++ quoted "message" ++ ": " ++ quoted "Not found" ++ "}")
    (JObj [("message", JStr "Not found")]).

(** An upstream that knows dashboard 7 only. *)
Definition dashboard_7_only : Session :=
  fun _ rq =>
    if String.eqb (url rq) "https://bi.example.com/api/v1/dashboard/7"
    then lookup_ok else not_found.

(** The text [[{"clause": "tenant_id=1"}]] of a default rule list. *)
Definition rls_text : string :=
  "[{" ++ quoted "clause" ++ ": " ++ quoted "tenant_id=1" ++ "}]".
Definition rls_rules : json := JArr [JObj [("clause", JStr "tenant_id=1")]].

(** [json.loads] on the two texts the sample environments hold; no other
    text is decoded here. *)
Definition json_loads (s : string) : Decoding :=
  if String.eqb s "[]" then Decoded (JArr [])
  else if String.eqb s rls_text then Decoded rls_rules
  else DecodeError "Expecting value: line 1 column 1 (char 0)".

(** An environment with all required settings and a default rule list. *)
Definition env : Env := fun name =>
  if String.eqb name "SUPERSET_URL" then Some "https://bi.example.com/"
  else if String.eqb name "SUPERSET_USERNAME" then Some "svc"
  else if String.eqb name "SUPERSET_PASSWORD" then Some "secret"
  else if String.eqb name "RLS_JSON" then Some rls_text
  else None.

(** The class [Config] of that environment once [validate] has run. *)
Definition config : Config :=
  mkConfig (Some "https://bi.example.com/") (Some "svc") (Some "secret")
    "db" true rls_rules.

(** An environment without any setting. *)
Definition no_env : Env := fun _ => None.

(** The body [{"dashboard": d}] *)
Definition body (d : string) : RequestBody := mkRequestBody d Omitted Omitted.

Definition base : string := "https://bi.example.com".

End Samples.


(** ** Vocabulary of the statements *)

(** The four upstream steps of the token pipeline, and the step an upstream
    call belongs to, read off its method and URL as a mocked upstream
    would. *)
Inductive Step : Type := Login | Csrf | Resolve | Issue.

Definition step_of (base : string) (rq : Request) : option Step :=
  match method rq with
  | POST =>
      if String.eqb (url rq) (base ++ "/api/v1/security/login") then Some Login
      else if String.eqb (url rq) (base ++ "/api/v1/security/guest_token/")
           then Some Issue
           else None
  | GET =>
      if String.eqb (url rq) (base ++ "/api/v1/security/csrf_token/") then Some Csrf
      else if prefix (base ++ "/api/v1/dashboard/") (url rq) then Some Resolve
           else None
  end.

(** The orders in which a run may call upstream: each is the sequence
    Login, CSRF, Resolve, Issue cut after some step, with or without the
    call of Resolve (which makes none for a UUID-shaped candidate). *)
Definition ordered_runs : list (list (option Step)) :=
  [[Some Login];
   [Some Login; Some Csrf];
   [Some Login; Some Csrf; Some Resolve];
   [Some Login; Some Csrf; Some Issue];
   [Some Login; Some Csrf; Some Resolve; Some Issue]].

(** A parse result with both a scheme and a network location. *)
Definition absolute_url (p : Urllib.ParseResult) : Prop :=
  Urllib.scheme p <> "" /\ Urllib.netloc p <> "".

(** [seg] is the last non-empty segment of [path]: a piece between
    slashes that is not empty and is followed by empty pieces only. *)
Definition last_nonempty_segment (path seg : string) : Prop :=
  exists before after,
    PyStr.split "/" path = (before ++ seg :: after)%list
    /\ seg <> "" /\ Forall (fun s => s = "") after.

(** [path] has no non-empty segment. *)
Definition no_segment (path : string) : Prop :=
  Forall (fun s => s = "") (PyStr.split "/" path).

(** The payload of a dashboard lookup names no UUID: [result] is absent or
    falsy, or it is an object whose [uuid] is absent or falsy. *)
Definition names_no_uuid (fields : dict) : bool :=
  match assoc "result" fields with
  | None => true
  | Some (JObj o) =>
      match assoc "uuid" o with
      | None => true
      | Some u => negb (truthy u)
      end
  | Some v => negb (truthy v)
  end.

(** The payload of a login answer holds no usable token: [access_token] is
    absent or falsy. *)
Definition no_access_token (fields : dict) : bool :=
  match assoc "access_token" fields with
  | None => true
  | Some t => negb (truthy t)
  end.

(** ** Further vocabulary *)

(** [a] and [b] are the same character, or the same ASCII letter in two
    cases; written out on the code points, without [lower]. *)
Definition same_letter (a b : ascii) : bool :=
  let m := PyStr.code a in
  let n := PyStr.code b in
  ((m =? n)
   || (65 <=? m) && (m <=? 90) && (n =? m + 32)
   || (65 <=? n) && (n <=? 90) && (m =? n + 32))%N.

(** [s] and [t] are the same text up to the case of ASCII letters. *)
Fixpoint same_text (s t : string) : bool :=
  match s, t with
  | EmptyString, EmptyString => true
  | String a s', String b t' => same_letter a b && same_text s' t'
  | _, _ => false
  end.

(** The lowercase ASCII letters and the digits. *)
Definition plain_chars : list ascii :=
  list_ascii_of_string "abcdefghijklmnopqrstuvwxyz0123456789".

Definition plain_text (s : string) : bool :=
  Urllib.all_chars (fun c => existsb (Ascii.eqb c) plain_chars) s.

(** The member [key] of a payload is absent or falsy, which is what
    [if not data.get(key)] tests. *)
Definition lacks (key : string) (fields : dict) : bool :=
  match assoc key fields with
  | None => true
  | Some v => negb (truthy v)
  end.

(** The request carries the header [Authorization: Bearer <token>]. *)
Definition authorized_by (access_token : json) (rq : Request) : Prop :=
  In ("Authorization", JStr ("Bearer " ++ PyRepr.str access_token))
     (req_headers rq).

(** The orders in which [get_dashboard_info] may call upstream. *)
Definition ordered_lookups : list (list (option Step)) :=
  [[Some Login]; [Some Login; Some Resolve]].

(** The call [rq], made after the calls [log], is answered 200 with a JSON
    object whose member [key] is the truthy value [v]. *)
Definition answers (session : Session) (log : list Request) (rq : Request)
    (key : string) (v : json) : Prop :=
  exists r fields,
    session log rq = Responded r /\ resp_status r = 200
    /\ resp_json r = inr (JObj fields)
    /\ assoc key fields = Some v /\ truthy v = true.

(** An exception that is an [HTTPException] with status code 400 or 500. *)
Definition http_400_or_500 (e : exn) : Prop :=
  exists detail, e = HTTPException 400 detail \/ e = HTTPException 500 detail.

(** The three required settings are all present and non-empty. *)
Definition settings_present (cls : Config) : bool :=
  negb (unset (SUPERSET_URL cls) || unset (SUPERSET_USERNAME cls)
        || unset (SUPERSET_PASSWORD cls)).

(** [e] is an exception other than [JSONDecodeError] that [json.loads]
    raises on the text held in [RLS_JSON], the required settings being
    present. *)
Definition decoder_exception (json_loads : string -> Decoding) (cls : Config)
    (e : exn) : Prop :=
  settings_present cls = true
  /\ exists s name msg,
       RLS_JSON cls = JStr s /\ json_loads s = DecoderRaised name msg
       /\ e = PyError name msg.

(** The message of the error raised for a default rule set that is not a
    list. *)
Definition not_an_array : string :=
  "RLS_JSON must be a JSON array, e.g. [] or [{"
  ++ PyStr.quoted "clause" ++ ":" ++ PyStr.quoted "tenant_id='acme'" ++ "}]".

(** [v] is a Python list. *)
Definition is_list (v : json) : bool :=
  match v with JArr _ => true | _ => false end.

Module MoreSamples.

(** [json.loads] on the text of the empty list and on that text between
    double quotes, which decodes to a string; no other text is decoded
    here. *)
Definition json_loads (s : string) : Decoding :=
  if String.eqb s "[]" then Decoded (JArr [])
  else if String.eqb s (PyStr.quoted "[]") then Decoded (JStr "[]")
  else DecodeError "Expecting value: line 1 column 1 (char 0)".

(** The text of 100000 opening brackets, and [json.loads] on it: the
    decoder gives up with [RecursionError]; no other text is decoded
    here. *)
Definition deep_text : string := N.iter 100000 (String "[") "".

Definition json_loads_deep (s : string) : Decoding :=
  if String.eqb s deep_text
  then DecoderRaised "RecursionError"
         "maximum recursion depth exceeded while decoding a JSON array from a unicode string"
  else DecodeError "Expecting value: line 1 column 1 (char 0)".

End MoreSamples.
(** ** Facts about the string operations *)

Module PyStrFacts.
Import PyStr.

Lemma lstrip_pad (ws s : string) :
  PyStr.all_space ws = true -> lstrip (ws ++ s) = lstrip s.
Proof.
  induction ws as [|c ws IH]; simpl; [reflexivity|].
  intros H. apply andb_true_iff in H as [Hc Hws]. rewrite Hc. auto.
Qed.

Lemma rstrip_all_space (ws : string) : PyStr.all_space ws = true -> rstrip ws = "".
Proof.
  induction ws as [|c ws IH]; simpl; [reflexivity|].
  intros H. apply andb_true_iff in H as [Hc Hws].
  rewrite (IH Hws), Hc. reflexivity.
Qed.

Lemma rstrip_pad (s ws : string) :
  PyStr.all_space ws = true -> rstrip (s ++ ws) = rstrip s.
Proof.
  intros Hws. induction s as [|c s IH]; simpl.
  - now apply rstrip_all_space.
  - now rewrite IH.
Qed.

Lemma strip_pad (ws1 s ws2 : string) :
  PyStr.all_space ws1 = true -> PyStr.all_space ws2 = true ->
  strip (ws1 ++ s ++ ws2) = strip s.
Proof.
  intros H1 H2. unfold strip. rewrite (lstrip_pad _ _ H1). clear ws1 H1.
  induction s as [|c s IH]; simpl.
  - rewrite rstrip_all_space; [reflexivity|].
    clear -H2. induction ws2 as [|d ws IH]; simpl in *; [reflexivity|].
    apply andb_true_iff in H2 as [Hd Hws]. rewrite Hd. auto.
  - destruct (isspace c); [exact IH|].
    change (String c (s ++ ws2)) with (String c s ++ ws2).
    now apply rstrip_pad.
Qed.

Lemma eqb_append_l (b x y : string) : String.eqb (b ++ x) (b ++ y) = String.eqb x y.
Proof.
  induction b as [|c b IH]; simpl; [reflexivity|].
  now rewrite Ascii.eqb_refl.
Qed.

Lemma prefix_append (b p c : string) : prefix (b ++ p) (b ++ p ++ c) = true.
Proof.
  induction b as [|x b IH]; simpl.
  - induction p as [|y p IHp]; simpl; [now destruct c|].
    destruct (ascii_dec y y) as [_|N]; [exact IHp|now elim N].
  - destruct (ascii_dec x x) as [_|N]; [exact IH|now elim N].
Qed.

Lemma append_nil_r (s : string) : s ++ "" = s.
Proof. induction s; simpl; congruence. Qed.

Lemma length_append (a b : string) : length (a ++ b) = (length a + length b)%nat.
Proof. induction a; simpl; congruence. Qed.

End PyStrFacts.

Ltac run_io :=
  unfold bind, lift, raise, ret, try_except, session_post, session_get,
    request, response_json; simpl.

Ltac case_split :=
  repeat match goal with
         | |- context [match ?x with _ => _ end] => destruct x eqn:?; simpl
         | |- context [if ?x then _ else _] => destruct x eqn:?; simpl
         end.

Section Steps.

Variable urlparse : string -> option Urllib.ParseResult.
Variable session : Session.
Variables (base : string) (verify : bool).

Lemma login_calls (u p : json) (provider : string) (log : list Request) :
  snd (login session base u p provider verify log)
  = (log ++ [login_request base u p provider verify])%list.
Proof.
  unfold login. run_io. fold (login_request base u p provider verify).
  case_split; reflexivity.
Qed.

Lemma get_csrf_calls (tok : json) (log : list Request) :
  snd (get_csrf session base tok verify log)
  = (log ++ [csrf_request base tok verify])%list.
Proof.
  unfold get_csrf. run_io. fold (bearer tok). fold (csrf_request base tok verify).
  case_split; reflexivity.
Qed.

Lemma resolve_calls (tok : json) (dash_arg : string) (log : list Request) :
  snd (resolve_dashboard_uuid urlparse session base tok dash_arg verify log)
  = (log ++ if uuid_shaped (candidate_of urlparse dash_arg) then []
            else [lookup_request base tok (candidate_of urlparse dash_arg) verify])%list.
Proof.
  unfold resolve_dashboard_uuid, uuid_shaped, candidate_of, lookup_request.
  destruct (_ && _); run_io; [now rewrite app_nil_r|].
  case_split; reflexivity.
Qed.

Lemma generate_guest_token_calls (tok csrf uuid rules user : json)
    (log : list Request) :
  snd (generate_guest_token session base tok csrf uuid rules user verify log)
  = (log ++ [issue_request base tok csrf uuid rules user verify])%list.
Proof.
  unfold generate_guest_token. run_io.
  fold (issue_request base tok csrf uuid rules user verify).
  case_split; reflexivity.
Qed.

End Steps.

(** ** Selection of the row-level-security rules (C1) *)

Lemma omitted_rls_selects_empty (b : RequestBody) (config : Config) :
  body_rls b = Omitted ->
  selected_rls (parse_GuestTokenRequest b) config = JArr [].
Proof. intros H. unfold selected_rls, parse_GuestTokenRequest. simpl. now rewrite H. Qed.

Lemma null_rls_selects_default (b : RequestBody) (config : Config) :
  body_rls b = Given None ->
  selected_rls (parse_GuestTokenRequest b) config = RLS_JSON config.
Proof. intros H. unfold selected_rls, parse_GuestTokenRequest. simpl. now rewrite H. Qed.

Lemma explicit_rls_selected_verbatim (b : RequestBody) (config : Config)
    (rules : list dict) :
  body_rls b = Given (Some rules) ->
  selected_rls (parse_GuestTokenRequest b) config = JArr (map JObj rules).
Proof. intros H. unfold selected_rls, parse_GuestTokenRequest. simpl. now rewrite H. Qed.

(** C1 (the code departs from the claim).  A body that omits [rls] selects
    the empty rule list whatever the configured default is, and a body with
    an explicit list selects that list.  With the default rule list
    [[{"clause": "tenant_id=1"}]] configured, the request body
    [{"dashboard": "42"}] runs the whole pipeline, and the guest-token call
    carries the empty rule list, not the configured default that [validate]
    stored in [Config.RLS_JSON]. *)
Theorem omitted_rls_reaches_issuance_empty :
  (forall d u config,
      selected_rls (parse_GuestTokenRequest (mkRequestBody d u Omitted)) config
      = JArr [])
  /\ (forall d u rules config,
        selected_rls
          (parse_GuestTokenRequest (mkRequestBody d u (Given (Some rules))))
          config
        = JArr (map JObj rules))
  /\ let run := app Urllib.urlparse Samples.json_loads Samples.superset
                  (POST_generate_token (Samples.body "42"))
                  (Config_class Samples.env) [] in
     snd run
     = [login_request Samples.base (JStr "svc") (JStr "secret") "db" true;
        csrf_request Samples.base (JStr "a1") true;
        lookup_request Samples.base (JStr "a1") "42" true;
        issue_request Samples.base (JStr "a1") (JStr "c1") (JStr Samples.uuid)
          (JArr []) (JStr "guest_via_api") true]
     /\ RLS_JSON (snd (fst run)) = Samples.rls_rules
     /\ Samples.rls_rules <> JArr [].
Proof.
  split; [reflexivity|split; [reflexivity|]].
  vm_compute. repeat split; discriminate.
Qed.

(** ** The token pipeline, step by step *)

Section Pipeline.

Variable urlparse : string -> option Urllib.ParseResult.
Variable session : Session.
Variable request : GuestTokenRequest.
Variable config : Config.
Variable base : string.
Hypothesis Hbase : base_url config = Ok base.

Let v := VERIFY_SSL config.
Let user := py_opt_str (SUPERSET_USERNAME config).
Let pass := py_opt_str (SUPERSET_PASSWORD config).
Let provider := SUPERSET_LOGIN_PROVIDER config.
Let rules := selected_rls request config.
Let guest := py_opt_str (username request).

(** The endpoint as a cascade over the results of its four steps. *)
Lemma endpoint_cascade (log : list Request) :
  generate_guest_token_endpoint urlparse session request config log
  = match login session base user pass provider v log with
    | (Raise e, l1) => (Raise (surfaced e), l1)
    | (Ok a, l1) =>
      match get_csrf session base a v l1 with
      | (Raise e, l2) => (Raise (surfaced e), l2)
      | (Ok c, l2) =>
        match resolve_dashboard_uuid urlparse session base a
                (dashboard request) v l2 with
        | (Raise e, l3) => (Raise (surfaced e), l3)
        | (Ok d, l3) =>
          match generate_guest_token session base a c d rules guest v l3 with
          | (Raise e, l4) => (Raise (surfaced e), l4)
          | (Ok t, l4) =>
            (match new_GuestTokenResponse t d
                     "Guest token generated successfully" with
             | Ok r => Ok r
             | Raise e => Raise (surfaced e)
             end, l4)
          end
        end
      end
    end.
Proof.
  unfold generate_guest_token_endpoint, try_except, bind, lift, raise.
  rewrite Hbase.
  fold v user pass provider rules guest.
  destruct (login _ _ _ _ _ _ _) as [[a|e] l1]; [|reflexivity].
  destruct (get_csrf _ _ _ _ _) as [[c|e] l2]; [|reflexivity].
  destruct (resolve_dashboard_uuid _ _ _ _ _ _ _) as [[d|e] l3]; [|reflexivity].
  destruct (generate_guest_token _ _ _ _ _ _ _ _ _) as [[t|e] l4]; [|reflexivity].
  destruct (new_GuestTokenResponse _ _ _); reflexivity.
Qed.

(** The calls a run adds to the log, written out. *)
Lemma endpoint_calls (log : list Request) :
  exists (a c d : json) (calls : list Request),
    snd (generate_guest_token_endpoint urlparse session request config log)
    = (log ++ calls)%list
    /\ let L := login_request base user pass provider v in
       let C := csrf_request base a v in
       let D := lookup_request base a
                  (candidate_of urlparse (dashboard request)) v in
       let I := issue_request base a c d rules guest v in
       In calls [[L]; [L; C]; [L; C; D]; [L; C; I]; [L; C; D; I]].
Proof.
  rewrite endpoint_cascade.
  pose proof (login_calls session base v user pass provider log) as HL.
  destruct (login _ _ _ _ _ _ _) as [[a|e] l1]; simpl in HL; subst l1.
  2:{ exists JNull, JNull, JNull, [login_request base user pass provider v].
      simpl. auto. }
  pose proof (get_csrf_calls session base v a
                (log ++ [login_request base user pass provider v])) as HC.
  destruct (get_csrf _ _ _ _ _) as [[c|e] l2]; simpl in HC; subst l2.
  2:{ exists a, JNull, JNull,
        [login_request base user pass provider v; csrf_request base a v].
      simpl. rewrite <- app_assoc. auto. }
  pose proof (resolve_calls urlparse session base v a (dashboard request)
                ((log ++ [login_request base user pass provider v])
                 ++ [csrf_request base a v])) as HR.
  destruct (resolve_dashboard_uuid _ _ _ _ _ _ _) as [[d|e] l3];
    simpl in HR; subst l3.
  2:{ exists a, JNull, JNull. eexists. simpl. rewrite <- !app_assoc. simpl.
      split; [reflexivity|].
      destruct (uuid_shaped _); simpl; auto. }
  match goal with
  | |- context [generate_guest_token ?s ?b ?a ?c ?d ?r ?g ?v ?l] =>
      pose proof (generate_guest_token_calls s b v a c d r g l) as HI;
      destruct (generate_guest_token s b a c d r g v l) as [[t|e] l4];
      simpl in HI; subst l4
  end.
  all: exists a, c, d; eexists; simpl; rewrite <- !app_assoc; simpl;
    (split; [reflexivity|]); destruct (uuid_shaped _); simpl; auto 6.
Qed.

End Pipeline.

(** ** Which step a call belongs to *)

Lemma step_of_login (base : string) (u p : json) (provider : string) (v : bool) :
  step_of base (login_request base u p provider v) = Some Login.
Proof.
  unfold step_of, login_request. cbn [method url]. now rewrite String.eqb_refl.
Qed.

Lemma step_of_csrf (base : string) (a : json) (v : bool) :
  step_of base (csrf_request base a v) = Some Csrf.
Proof.
  unfold step_of, csrf_request. cbn [method url]. now rewrite String.eqb_refl.
Qed.

Lemma step_of_lookup (base : string) (a : json) (candidate : string) (v : bool) :
  step_of base (lookup_request base a candidate v) = Some Resolve.
Proof.
  unfold step_of, lookup_request. cbn [method url].
  rewrite PyStrFacts.eqb_append_l.
  replace (String.eqb ("/api/v1/dashboard/" ++ candidate)
             "/api/v1/security/csrf_token/") with false by reflexivity.
  now rewrite PyStrFacts.prefix_append.
Qed.

Lemma step_of_issue (base : string) (a c d r g : json) (v : bool) :
  step_of base (issue_request base a c d r g v) = Some Issue.
Proof.
  unfold step_of, issue_request. cbn [method url].
  rewrite PyStrFacts.eqb_append_l.
  replace (String.eqb "/api/v1/security/guest_token/" "/api/v1/security/login")
    with false by reflexivity.
  now rewrite String.eqb_refl.
Qed.

Lemma endpoint_steps (urlparse : string -> option Urllib.ParseResult)
    (session : Session) (request : GuestTokenRequest) (config : Config)
    (base : string) (log : list Request) :
  base_url config = Ok base ->
  exists calls,
    snd (generate_guest_token_endpoint urlparse session request config log)
    = (log ++ calls)%list
    /\ In (map (step_of base) calls) ordered_runs
    /\ Forall (fun rq => verify rq = VERIFY_SSL config /\ timeout rq = 20) calls.
Proof.
  intros Hbase.
  destruct (endpoint_calls urlparse session request config base Hbase log)
    as (a & c & d & calls & Hlog & Hin).
  exists calls. split; [exact Hlog|].
  simpl in Hin.
  destruct Hin as [H|[H|[H|[H|[H|[]]]]]]; subst calls; cbn [map];
    rewrite ?step_of_login, ?step_of_csrf, ?step_of_lookup, ?step_of_issue;
    unfold ordered_runs; (split; [cbn [In]; auto 6|]);
    repeat constructor.
Qed.

(** ** Failure responses (C2) *)

Lemma http_exception_handler_ignores_status (s1 s2 : Z) (detail : string) :
  http_exception_handler s1 detail = http_exception_handler s2 detail.
Proof. reflexivity. Qed.

(** C2 (the code departs from the claim).  A login refused with status 401
    makes [POST /generate-token] raise [HTTPException(400, "Login failed
    (401): ...")]; the handler registered for it returns the bare dict
    [{error, detail}], which holds no status code: the value is the one
    returned for a status-500 exception with the same detail. *)
Theorem failed_login_answer_drops_status :
  let run := app Urllib.urlparse Samples.json_loads
               (Samples.scripted [Samples.unauthorized])
               (POST_generate_token (Samples.body "any"))
               (Config_class Samples.env) [] in
  let detail := "Login failed (401): {" ++ PyStr.quoted "message" ++ ": "
                ++ PyStr.quoted "Not authorized" ++ "}" in
  fst (fst run) = Raise (HTTPException 400 detail)
  /\ handle_exception (HTTPException 400 detail)
     = JObj [("error", JStr "HTTP Error"); ("detail", JStr detail)]
  /\ handle_exception (HTTPException 400 detail)
     = handle_exception (HTTPException 500 detail).
Proof. vm_compute. repeat split. Qed.

(** ** Order of the pipeline and abort on failure (C4) *)

(** C4, the claim as written fails: the upstream refuses the connection of
    the login call; the login step raises [ConnectionError], and the
    endpoint surfaces a different exception, a status-500 [HTTPException]
    that wraps its message. *)
Lemma refused_connection_is_rewrapped :
  let refused := Samples.scripted [] in
  let L := login_request Samples.base (JStr "svc") (JStr "secret") "db" true in
  login refused Samples.base (JStr "svc") (JStr "secret") "db" true []
  = (Raise (PyError "ConnectionError" "connection refused"), [L])
  /\ generate_guest_token_endpoint Urllib.urlparse refused
       (parse_GuestTokenRequest (Samples.body "42")) Samples.config []
     = (Raise (HTTPException 500 "Internal server error: connection refused"),
        [L])
  /\ HTTPException 500 "Internal server error: connection refused"
     <> PyError "ConnectionError" "connection refused".
Proof. vm_compute. repeat split. discriminate. Qed.

(** C4, amended.  The upstream calls of a run of the token endpoint are, in
    this order, the call of Login, of CSRF, of Resolve (if it makes one) and
    of Issue, cut after the step that fails; when step k raises, the run
    ends with the log as that step left it, so no later step runs, and it
    raises that step's exception unchanged if it is an [HTTPException] and
    wrapped as [HTTPException(500, "Internal server error: ...")]
    otherwise. *)
Theorem pipeline_order_and_abort
    (urlparse : string -> option Urllib.ParseResult) (session : Session)
    (request : GuestTokenRequest) (config : Config) (base : string)
    (log : list Request) :
  base_url config = Ok base ->
  let v := VERIFY_SSL config in
  let run_login := login session base (py_opt_str (SUPERSET_USERNAME config))
                  (py_opt_str (SUPERSET_PASSWORD config))
                  (SUPERSET_LOGIN_PROVIDER config) v in
  let run_csrf a := get_csrf session base a v in
  let run_resolve a :=
    resolve_dashboard_uuid urlparse session base a (dashboard request) v in
  let run_issue a c d :=
    generate_guest_token session base a c d (selected_rls request config)
      (py_opt_str (username request)) v in
  let run := generate_guest_token_endpoint urlparse session request config log in
  (exists calls, snd run = (log ++ calls)%list
                 /\ In (map (step_of base) calls) ordered_runs)
  /\ (forall e l1, run_login log = (Raise e, l1) -> run = (Raise (surfaced e), l1))
  /\ (forall a l1 e l2,
        run_login log = (Ok a, l1) -> run_csrf a l1 = (Raise e, l2) ->
        run = (Raise (surfaced e), l2))
  /\ (forall a l1 c l2 e l3,
        run_login log = (Ok a, l1) -> run_csrf a l1 = (Ok c, l2) ->
        run_resolve a l2 = (Raise e, l3) ->
        run = (Raise (surfaced e), l3))
  /\ (forall a l1 c l2 d l3 e l4,
        run_login log = (Ok a, l1) -> run_csrf a l1 = (Ok c, l2) ->
        run_resolve a l2 = (Ok d, l3) -> run_issue a c d l3 = (Raise e, l4) ->
        run = (Raise (surfaced e), l4))
  /\ (forall status detail,
        surfaced (HTTPException status detail) = HTTPException status detail)
  /\ (forall name msg,
        surfaced (PyError name msg)
        = HTTPException 500 ("Internal server error: " ++ msg)).
Proof.
  intros Hbase v run_login run_csrf run_resolve run_issue run.
  split.
  { destruct (endpoint_steps urlparse session request config base log Hbase)
      as (calls & Hlog & Hin & _).
    exists calls. auto. }
  subst run. rewrite (endpoint_cascade urlparse session request config base Hbase).
  fold v. fold run_login.
  repeat split.
  - intros e l1 H. now rewrite H.
  - intros a l1 e l2 H1 H2. rewrite H1. fold (run_csrf a l1). now rewrite H2.
  - intros a l1 c l2 e l3 H1 H2 H3. rewrite H1. fold (run_csrf a l1). rewrite H2.
    fold (run_resolve a l2). now rewrite H3.
  - intros a l1 c l2 d l3 e l4 H1 H2 H3 H4. rewrite H1. fold (run_csrf a l1).
    rewrite H2. fold (run_resolve a l2). rewrite H3. fold (run_issue a c d l3).
    now rewrite H4.
Qed.

(** A run in which the second step fails: the CSRF fetch is answered 403,
    the log ends with its call and its error is raised as it is. *)
Lemma pipeline_order_and_abort_witness :
  base_url Samples.config = Ok Samples.base
  /\ generate_guest_token_endpoint Urllib.urlparse
       (Samples.scripted [Samples.login_ok; Samples.forbidden])
       (parse_GuestTokenRequest (Samples.body "42")) Samples.config []
     = (Raise (HTTPException 400
                 ("Fetching CSRF failed (403): {" ++ PyStr.quoted "message"
                  ++ ": " ++ PyStr.quoted "Forbidden" ++ "}")),
        [login_request Samples.base (JStr "svc") (JStr "secret") "db" true;
         csrf_request Samples.base (JStr "a1") true]).
Proof.
  split; [reflexivity|].
  exact (proj1 (proj2 (proj2
           (pipeline_order_and_abort Urllib.urlparse
              (Samples.scripted [Samples.login_ok; Samples.forbidden])
              (parse_GuestTokenRequest (Samples.body "42")) Samples.config
              Samples.base [] eq_refl)))
         (JStr "a1") _ _ _ eq_refl eq_refl).
Defined.

(** ** Configuration check before any upstream call (C6) *)

(** C6, the claim as written fails: with no setting at all in the
    environment, [GET /health] does not fail; it answers that the API is
    running. *)
Lemma health_check_without_settings :
  unset (SUPERSET_URL (Config_class Samples.no_env)) = true
  /\ app Urllib.urlparse Samples.json_loads Samples.superset GET_health
       (Config_class Samples.no_env) []
     = (Ok health_check, Config_class Samples.no_env, []).
Proof. split; reflexivity. Qed.

(** C6, amended.  While one of [SUPERSET_URL], [SUPERSET_USERNAME],
    [SUPERSET_PASSWORD] is missing or empty, a request to one of the two
    routes that depend on [get_config], [POST /generate-token] and
    [GET /dashboard/{id}], raises the configuration [HTTPException] with
    status code 500 and makes no upstream call; the other three routes
    take no configuration, make no upstream call and answer as usual. *)
Theorem missing_settings_stop_before_upstream
    (urlparse : string -> option Urllib.ParseResult)
    (json_loads : string -> Decoding) (session : Session)
    (rq : HttpRequest) (cls : Config) (log : list Request) :
  unset (SUPERSET_URL cls) || unset (SUPERSET_USERNAME cls)
  || unset (SUPERSET_PASSWORD cls) = true ->
  match rq with
  | POST_generate_token _ | GET_dashboard _ =>
      app urlparse json_loads session rq cls log
      = (Raise (HTTPException 500
                  "Missing environment variables. Set SUPERSET_URL, SUPERSET_USERNAME, SUPERSET_PASSWORD in .env"),
         cls, log)
  | GET_root | OPTIONS_generate_token | GET_health =>
      exists answer, app urlparse json_loads session rq cls log = (Ok answer, cls, log)
  end.
Proof.
  intros H.
  destruct rq; cbn [app]; try (eexists; reflexivity);
    unfold get_config, validate; rewrite H; reflexivity.
Qed.

Lemma missing_settings_stop_before_upstream_witness :
  app Urllib.urlparse Samples.json_loads Samples.superset
    (POST_generate_token (Samples.body "42")) (Config_class Samples.no_env) []
  = (Raise (HTTPException 500
              "Missing environment variables. Set SUPERSET_URL, SUPERSET_USERNAME, SUPERSET_PASSWORD in .env"),
     Config_class Samples.no_env, []).
Proof.
  exact (missing_settings_stop_before_upstream Urllib.urlparse
           Samples.json_loads Samples.superset
           (POST_generate_token (Samples.body "42"))
           (Config_class Samples.no_env) [] eq_refl).
Defined.

(** ** The TLS-verification flag (C9) *)

Lemma endpoint_verify (urlparse : string -> option Urllib.ParseResult)
    (session : Session) (request : GuestTokenRequest) (config : Config)
    (log : list Request) :
  exists calls,
    snd (generate_guest_token_endpoint urlparse session request config log)
    = (log ++ calls)%list
    /\ Forall (fun rq => verify rq = VERIFY_SSL config) calls.
Proof.
  destruct (base_url config) as [base|e] eqn:Hbase.
  - destruct (endpoint_steps urlparse session request config base log Hbase)
      as (calls & Hlog & _ & Hall).
    exists calls. split; [exact Hlog|].
    eapply Forall_impl; [|exact Hall]. now intros rq [Hv _].
  - exists []. split; [|constructor].
    unfold generate_guest_token_endpoint, try_except, bind, lift, raise.
    rewrite Hbase. simpl. now rewrite app_nil_r.
Qed.

Lemma dashboard_info_verify (urlparse : string -> option Urllib.ParseResult)
    (session : Session) (dashboard_id : string) (config : Config)
    (log : list Request) :
  exists calls,
    snd (get_dashboard_info urlparse session dashboard_id config log)
    = (log ++ calls)%list
    /\ Forall (fun rq => verify rq = VERIFY_SSL config) calls.
Proof.
  unfold get_dashboard_info, try_except, bind, lift, raise, ret.
  destruct (base_url config) as [base|e].
  2:{ exists []. simpl. rewrite app_nil_r. split; [reflexivity|constructor]. }
  match goal with
  | |- context [login ?s ?b ?u ?p ?pr ?v ?l] =>
      pose proof (login_calls s b v u p pr l) as HL;
      destruct (login s b u p pr v l) as [[a|e] l1]; simpl in HL; subst l1
  end.
  2:{ eexists. split; [reflexivity|]. repeat constructor. }
  match goal with
  | |- context [resolve_dashboard_uuid ?up ?s ?b ?a ?d ?v ?l] =>
      pose proof (resolve_calls up s b v a d l) as HR;
      destruct (resolve_dashboard_uuid up s b a d v l) as [[u|e] l2];
      simpl in HR; subst l2
  end.
  all: eexists; simpl; rewrite <- app_assoc; (split; [reflexivity|]);
    destruct (uuid_shaped _); repeat constructor.
Qed.

Lemma lower_char_same_letter (a b : ascii) :
  In b plain_chars -> Ascii.eqb (PyStr.lower_char a) b = same_letter a b.
Proof.
  assert (H : forallb (fun b => Bool.eqb (Ascii.eqb (PyStr.lower_char a) b)
                                 (same_letter a b)) plain_chars = true).
  { destruct a as [[] [] [] [] [] [] [] []]; vm_compute; reflexivity. }
  intros Hb. rewrite forallb_forall in H. apply Bool.eqb_prop. now apply H.
Qed.

Lemma lower_same_text (v : string) :
  plain_text v = true ->
  forall w, String.eqb (PyStr.lower w) v = same_text w v.
Proof.
  induction v as [|b v IH]; intros Hv w.
  - now destruct w.
  - simpl in Hv. apply andb_true_iff in Hv as [Hb Hv].
    destruct w as [|a w]; [reflexivity|]. simpl.
    apply existsb_exists in Hb as (c & Hc & Hbc).
    apply Ascii.eqb_eq in Hbc. subst c.
    rewrite (lower_char_same_letter a b Hc), (IH Hv w).
    destruct (same_letter a b); reflexivity.
Qed.

(** C9.  [Config.VERIFY_SSL] is true exactly when the lowercased value of
    [VERIFY_SSL], taken as "true" when the variable is unset, is one of
    "1", "true", "yes", "y", "on"; that is, exactly when the value is one
    of these five words up to the case of its letters, so "TRUE", "On" and
    "yEs" enable verification.  It is true when the variable is unset and
    false for every other text, such as the misspelling "ture", "0" or the
    empty text; and every upstream call of the two endpoints passes that
    flag as [verify]. *)
Theorem verify_ssl_enabled_iff (env : Env) :
  let setting value : Env :=
    fun name => if String.eqb name "VERIFY_SSL" then value else env name in
  (VERIFY_SSL (Config_class env) = true
   <-> In (PyStr.lower (getenv env "VERIFY_SSL" "true"))
          ["1"; "true"; "yes"; "y"; "on"])
  /\ VERIFY_SSL (Config_class env)
     = existsb (same_text (getenv env "VERIFY_SSL" "true"))
         ["1"; "true"; "yes"; "y"; "on"]
  /\ VERIFY_SSL (Config_class (setting None)) = true
  /\ VERIFY_SSL (Config_class (setting (Some "TRUE"))) = true
  /\ VERIFY_SSL (Config_class (setting (Some "On"))) = true
  /\ VERIFY_SSL (Config_class (setting (Some "yEs"))) = true
  /\ VERIFY_SSL (Config_class (setting (Some "Y"))) = true
  /\ VERIFY_SSL (Config_class (setting (Some "ture"))) = false
  /\ VERIFY_SSL (Config_class (setting (Some "0"))) = false
  /\ VERIFY_SSL (Config_class (setting (Some ""))) = false
  /\ (forall urlparse session request config log,
        exists calls,
          snd (generate_guest_token_endpoint urlparse session request config log)
          = (log ++ calls)%list
          /\ Forall (fun rq => verify rq = VERIFY_SSL config) calls)
  /\ (forall urlparse session dashboard_id config log,
        exists calls,
          snd (get_dashboard_info urlparse session dashboard_id config log)
          = (log ++ calls)%list
          /\ Forall (fun rq => verify rq = VERIFY_SSL config) calls).
Proof.
  intros setting.
  split; [|split; [|repeat (split; [reflexivity|]); split]].
  - unfold Config_class. cbn [VERIFY_SSL]. rewrite existsb_exists. split.
    + intros (x & Hin & Heq). apply String.eqb_eq in Heq. now subst x.
    + intros Hin. eexists. split; [exact Hin|apply String.eqb_refl].
  - unfold Config_class. cbn [VERIFY_SSL existsb].
    now rewrite !lower_same_text by reflexivity.
  - intros. apply endpoint_verify.
  - intros. apply dashboard_info_verify.
Qed.

(** ** The candidate of a reference (C5) *)

Lemma nonempty_true (s : string) : PyStr.nonempty s = true <-> s <> "".
Proof. destruct s; simpl; split; congruence. Qed.

Lemma filter_all_empty (l : list string) :
  Forall (fun s => s = "") l -> filter PyStr.nonempty l = [].
Proof.
  induction 1 as [|s l Hs _ IH]; simpl; [reflexivity|]. now subst s.
Qed.

Lemma last_opt_snoc {A} (l : list A) (x : A) : last_opt (l ++ [x]) = Some x.
Proof. unfold last_opt. now rewrite rev_app_distr. Qed.

Lemma last_segment_found (pieces before after : list string) (seg : string) :
  pieces = (before ++ seg :: after)%list -> seg <> "" ->
  Forall (fun s => s = "") after ->
  last_opt (filter PyStr.nonempty pieces) = Some seg.
Proof.
  intros -> Hseg Hafter. rewrite filter_app. simpl.
  apply nonempty_true in Hseg. rewrite Hseg, (filter_all_empty _ Hafter).
  apply last_opt_snoc.
Qed.

Section Candidate.

Variable urlparse : string -> option Urllib.ParseResult.

Lemma extract_absolute (ref : string) (p : Urllib.ParseResult) :
  urlparse ref = Some p -> absolute_url p ->
  extract_candidate_from_url urlparse ref
  = match last_opt (filter PyStr.nonempty (PyStr.split "/" (Urllib.path p))) with
    | Some seg => seg
    | None => ref
    end.
Proof.
  intros Hp [Hs Hn]. unfold extract_candidate_from_url. rewrite Hp.
  apply nonempty_true in Hs, Hn. now rewrite Hs, Hn.
Qed.

Lemma extract_not_absolute (ref : string) (p : Urllib.ParseResult) :
  urlparse ref = Some p -> ~ absolute_url p ->
  extract_candidate_from_url urlparse ref = ref.
Proof.
  intros Hp Hna. unfold extract_candidate_from_url. rewrite Hp.
  destruct (PyStr.nonempty (Urllib.scheme p)) eqn:Hs; [|reflexivity].
  destruct (PyStr.nonempty (Urllib.netloc p)) eqn:Hn; [|reflexivity].
  elim Hna. split; now apply nonempty_true.
Qed.

Lemma resolve_uuid_shaped (session : Session) (base : string) (tok : json)
    (ref : string) (verify : bool) (log : list Request) :
  uuid_shaped (candidate_of urlparse ref) = true ->
  resolve_dashboard_uuid urlparse session base tok ref verify log
  = (Ok (JStr (candidate_of urlparse ref)), log).
Proof.
  unfold resolve_dashboard_uuid, uuid_shaped, candidate_of. now intros ->.
Qed.

End Candidate.

(** C5, the claim as written fails: the reference [https://bi.example.com/]
    parses as an absolute URL, its path [/] has no non-empty segment, and the
    candidate is the whole reference, which is no segment of the path. *)
Lemma url_without_segment_is_its_own_candidate :
  let ref := "https://bi.example.com/" in
  Urllib.urlparse ref
  = Some (Urllib.mkParseResult "https" "bi.example.com" "/" "" "" "")
  /\ PyStr.split "/" "/" = [""; ""]
  /\ extract_candidate_from_url Urllib.urlparse ref = ref
  /\ ~ In ref (PyStr.split "/" "/").
Proof.
  repeat split; try reflexivity.
  simpl. intros [H|[H|[]]]; discriminate.
Qed.

(** C5, amended.  For a reference that parses as an absolute URL whose path
    has a non-empty segment, the candidate is the last such segment; for
    every other reference (an absolute URL whose path has no non-empty
    segment, a reference without scheme or network location, one that
    [urlparse] rejects) it is the reference itself.  The resolver strips the
    candidate and uses the result both for the UUID-shape check and in the
    URL of the lookup. *)
Theorem candidate_is_last_segment_or_reference
    (urlparse : string -> option Urllib.ParseResult) (ref : string) :
  (forall p seg,
      urlparse ref = Some p -> absolute_url p ->
      last_nonempty_segment (Urllib.path p) seg ->
      extract_candidate_from_url urlparse ref = seg)
  /\ (forall p,
        urlparse ref = Some p -> absolute_url p -> no_segment (Urllib.path p) ->
        extract_candidate_from_url urlparse ref = ref)
  /\ (forall p,
        urlparse ref = Some p -> ~ absolute_url p ->
        extract_candidate_from_url urlparse ref = ref)
  /\ (urlparse ref = None -> extract_candidate_from_url urlparse ref = ref)
  /\ (forall session base tok verify log,
        let candidate := PyStr.strip (extract_candidate_from_url urlparse ref) in
        let run := resolve_dashboard_uuid urlparse session base tok ref verify log in
        if uuid_shaped candidate then run = (Ok (JStr candidate), log)
        else snd run = (log ++ [lookup_request base tok candidate verify])%list).
Proof.
  repeat split.
  - intros p seg Hp Habs (before & after & Hsplit & Hseg & Hafter).
    rewrite (extract_absolute urlparse ref p Hp Habs).
    now rewrite (last_segment_found _ _ _ _ Hsplit Hseg Hafter).
  - intros p Hp Habs Hnone.
    rewrite (extract_absolute urlparse ref p Hp Habs).
    unfold no_segment in Hnone. now rewrite (filter_all_empty _ Hnone).
  - intros p. apply extract_not_absolute.
  - intros Hp. unfold extract_candidate_from_url. now rewrite Hp.
  - intros session base tok verify log candidate run.
    fold (candidate_of urlparse ref) in candidate.
    destruct (uuid_shaped candidate) eqn:Hshape.
    + now apply resolve_uuid_shaped.
    + subst run. rewrite resolve_calls. fold candidate. now rewrite Hshape.
Qed.

(** The dashboard URL of a Superset instance: the candidate is its last
    segment, 42. *)
Lemma candidate_is_last_segment_or_reference_witness :
  extract_candidate_from_url Urllib.urlparse
    "https://bi.example.com/superset/dashboard/42/?standalone=1" = "42".
Proof.
  refine (proj1 (candidate_is_last_segment_or_reference Urllib.urlparse
                   "https://bi.example.com/superset/dashboard/42/?standalone=1")
            (Urllib.mkParseResult "https" "bi.example.com"
               "/superset/dashboard/42/" "" "standalone=1" "")
            "42" eq_refl _ _).
  - split; discriminate.
  - exists [""; "superset"; "dashboard"], [""].
    split; [reflexivity|]. split; [discriminate|]. repeat constructor.
Defined.

(** ** UUID-shaped references (C3) *)

(** C3, the claim as written fails: this reference has exactly 36 characters
    and exactly 4 hyphens, the first character being a space; its candidate
    is the 35 characters left by [strip], and the lookup call is made. *)
Lemma padded_uuid_shape_is_looked_up :
  let ref := " 1111111-2222-3333-4444-555555555555" in
  length ref = 36%nat /\ PyStr.count "-" ref = 4%nat
  /\ snd (resolve_dashboard_uuid Urllib.urlparse
            (Samples.scripted [Samples.lookup_ok]) Samples.base (JStr "a1")
            ref true [])
     = [lookup_request Samples.base (JStr "a1")
          "1111111-2222-3333-4444-555555555555" true]
  /\ fst (resolve_dashboard_uuid Urllib.urlparse
            (Samples.scripted [Samples.lookup_ok]) Samples.base (JStr "a1")
            ref true [])
     = Ok (JStr Samples.uuid)
  /\ JStr Samples.uuid <> JStr ref.
Proof. vm_compute. repeat split. discriminate. Qed.

(** C3, amended.  A reference of exactly 36 characters with exactly 4
    hyphens that is its own candidate, having no white space at either end
    and no path segment taken out of it as a URL, is returned unchanged, and
    no upstream call is made. *)
Theorem uuid_shaped_reference_returned
    (urlparse : string -> option Urllib.ParseResult) (session : Session)
    (base : string) (tok : json) (ref : string) (verify : bool)
    (log : list Request) :
  length ref = 36%nat -> PyStr.count "-" ref = 4%nat ->
  PyStr.strip ref = ref -> extract_candidate_from_url urlparse ref = ref ->
  resolve_dashboard_uuid urlparse session base tok ref verify log
  = (Ok (JStr ref), log).
Proof.
  intros Hlen Hcount Hstrip Hextract.
  assert (Hcand : candidate_of urlparse ref = ref).
  { unfold candidate_of. now rewrite Hextract. }
  rewrite <- Hcand at 2. apply resolve_uuid_shaped.
  rewrite Hcand. unfold uuid_shaped. now rewrite Hlen, Hcount.
Qed.

Lemma uuid_shaped_reference_returned_witness :
  resolve_dashboard_uuid Urllib.urlparse (Samples.scripted []) Samples.base
    (JStr "a1") Samples.uuid true []
  = (Ok (JStr Samples.uuid), []).
Proof.
  apply uuid_shaped_reference_returned; reflexivity.
Defined.

(** ** The login step (C7) *)

(** C7, the claim as written fails: the login call is answered 200 with the
    body [{}], which has no [access_token]; the error raised names neither
    the upstream status nor the body. *)
Lemma login_without_token_error_lacks_status_and_body :
  let session := Samples.scripted [Samples.answer 200 "{}" (JObj [])] in
  let detail := "Login succeeded but no access_token returned" in
  login session Samples.base (JStr "svc") (JStr "secret") "db" true []
  = (Raise (HTTPException 400 detail),
     [login_request Samples.base (JStr "svc") (JStr "secret") "db" true])
  /\ PyStr.contains "200" detail = false
  /\ PyStr.contains "{}" detail = false.
Proof. vm_compute. repeat split. Qed.

Section LoginStep.

Variable session : Session.
Variables (base : string) (u p : json) (provider : string) (verify : bool).
Variable log : list Request.

Let rq := login_request base u p provider verify.
Let run := login session base u p provider verify log.

Lemma login_refused (name msg : string) :
  session log rq = Failed name msg -> fst run = Raise (PyError name msg).
Proof.
  subst run rq. unfold login, login_request. run_io. now intros ->.
Qed.

Lemma login_bad_status (r : Response) :
  session log rq = Responded r -> resp_status r <> 200 ->
  fst run
  = Raise (HTTPException 400
             ("Login failed (" ++ PyStr.of_int (resp_status r) ++ "): "
              ++ http_error_detail r)).
Proof.
  subst run rq. unfold login, login_request. run_io. intros -> Hs.
  apply Z.eqb_neq in Hs. now rewrite Hs.
Qed.

Lemma login_status_200 (r : Response) :
  session log rq = Responded r -> resp_status r = 200 ->
  fst run
  = match resp_json r with
    | inl msg => Raise (PyError "JSONDecodeError" msg)
    | inr data =>
        match py_get data "access_token" with
        | Raise e => Raise e
        | Ok token =>
            if truthy token then Ok token
            else Raise (HTTPException 400
                          "Login succeeded but no access_token returned")
        end
    end.
Proof.
  subst run rq. unfold login, login_request. run_io. intros -> Hs.
  rewrite Hs. simpl.
  destruct (resp_json r) as [msg|data]; simpl; [reflexivity|].
  destruct (py_get data "access_token") as [token|e]; simpl; [|reflexivity].
  now destruct (truthy token).
Qed.

End LoginStep.

(** C7, amended.  The login step raises an [HTTPException] exactly when the
    upstream answers with a status other than 200, or answers with a JSON
    object whose [access_token] is absent or falsy.  In the first case the
    exception has status code 400 and the detail "Login failed (<status>):
    <body>"; in the second it has status code 400 and the fixed detail
    "Login succeeded but no access_token returned".  A login answered 401
    makes the token endpoint raise the first one, after the login call
    alone. *)
Theorem login_raises_iff (session : Session) (base : string) (u p : json)
    (provider : string) (verify : bool) (log : list Request) :
  let rq := login_request base u p provider verify in
  let run := login session base u p provider verify log in
  ((exists status detail, fst run = Raise (HTTPException status detail))
   <-> exists r, session log rq = Responded r
                 /\ (resp_status r <> 200
                     \/ exists fields, resp_json r = inr (JObj fields)
                                       /\ no_access_token fields = true))
  /\ (forall r,
        session log rq = Responded r -> resp_status r <> 200 ->
        fst run
        = Raise (HTTPException 400
                   ("Login failed (" ++ PyStr.of_int (resp_status r) ++ "): "
                    ++ http_error_detail r)))
  /\ (forall r fields,
        session log rq = Responded r -> resp_status r = 200 ->
        resp_json r = inr (JObj fields) -> no_access_token fields = true ->
        fst run
        = Raise (HTTPException 400
                   "Login succeeded but no access_token returned"))
  /\ (forall urlparse request config r,
        base_url config = Ok base ->
        u = py_opt_str (SUPERSET_USERNAME config) ->
        p = py_opt_str (SUPERSET_PASSWORD config) ->
        provider = SUPERSET_LOGIN_PROVIDER config ->
        verify = VERIFY_SSL config ->
        session log rq = Responded r -> resp_status r = 401 ->
        generate_guest_token_endpoint urlparse session request config log
        = (Raise (HTTPException 400
                    ("Login failed (401): " ++ http_error_detail r)),
           (log ++ [rq])%list)).
Proof.
  intros rq run.
  assert (Hno : forall r fields,
             session log rq = Responded r -> resp_status r = 200 ->
             resp_json r = inr (JObj fields) -> no_access_token fields = true ->
             fst run = Raise (HTTPException 400
                                "Login succeeded but no access_token returned")).
  { intros r fields Hr Hs Hj Hn. subst run.
    rewrite (login_status_200 session base u p provider verify log r Hr Hs), Hj.
    unfold no_access_token in Hn. simpl.
    destruct (assoc "access_token" fields) as [t|]; [|reflexivity].
    apply negb_true_iff in Hn. now rewrite Hn. }
  split; [split|split; [|split]].
  - intros (status & detail & Hrun).
    destruct (session log rq) as [r|name msg] eqn:Hr.
    2:{ subst run.
        rewrite (login_refused session base u p provider verify log _ _ Hr) in Hrun.
        discriminate. }
    exists r. split; [reflexivity|].
    destruct (Z.eq_dec (resp_status r) 200) as [Hs|Hs]; [right|now left].
    subst run.
    rewrite (login_status_200 session base u p provider verify log r Hr Hs) in Hrun.
    destruct (resp_json r) as [msg|data]; [discriminate|].
    destruct data; try discriminate. exists fields. split; [reflexivity|].
    simpl in Hrun. unfold no_access_token.
    destruct (assoc "access_token" fields) as [t|]; [|reflexivity].
    destruct (truthy t); [discriminate|reflexivity].
  - intros (r & Hr & Hcase).
    destruct (Z.eq_dec (resp_status r) 200) as [Hs|Hs].
    + destruct Hcase as [Hne|(fields & Hj & Hn)]; [contradiction|].
      do 2 eexists. exact (Hno r fields Hr Hs Hj Hn).
    + do 2 eexists.
      exact (login_bad_status session base u p provider verify log r Hr Hs).
  - intros r. apply login_bad_status.
  - exact Hno.
  - intros urlparse request config r Hbase -> -> -> -> Hr Hs.
    rewrite (endpoint_cascade urlparse session request config base Hbase).
    assert (H401 : resp_status r <> 200) by (rewrite Hs; discriminate).
    pose proof (login_bad_status session base _ _ _ _ log r Hr H401) as Hfst.
    pose proof (login_calls session base (VERIFY_SSL config)
                  (py_opt_str (SUPERSET_USERNAME config))
                  (py_opt_str (SUPERSET_PASSWORD config))
                  (SUPERSET_LOGIN_PROVIDER config) log) as Hsnd.
    destruct (login _ _ _ _ _ _ _) as [res l1]. simpl in Hfst, Hsnd.
    subst res l1. rewrite Hs. reflexivity.
Qed.

(** The scenario of the specification: a login answered 401. *)
Lemma login_raises_iff_witness :
  generate_guest_token_endpoint Urllib.urlparse
    (Samples.scripted [Samples.unauthorized])
    (parse_GuestTokenRequest (Samples.body "any")) Samples.config []
  = (Raise (HTTPException 400
              ("Login failed (401): {" ++ PyStr.quoted "message" ++ ": "
               ++ PyStr.quoted "Not authorized" ++ "}")),
     [login_request Samples.base (JStr "svc") (JStr "secret") "db" true]).
Proof.
  exact (proj2 (proj2 (proj2
           (login_raises_iff (Samples.scripted [Samples.unauthorized])
              Samples.base (JStr "svc") (JStr "secret") "db" true [])))
         Urllib.urlparse (parse_GuestTokenRequest (Samples.body "any"))
         Samples.config
         (mkResponse 401
            (Some ("{" ++ PyStr.quoted "message" ++ ": "
                   ++ PyStr.quoted "Not authorized" ++ "}"))
            (inr (JObj [("message", JStr "Not authorized")])))
         eq_refl eq_refl eq_refl eq_refl eq_refl eq_refl eq_refl).
Defined.

(** ** White space around a reference (C8) *)

Module StripFacts.
Import PyStr.

Lemma rstrip_idempotent (s : string) : rstrip (rstrip s) = rstrip s.
Proof.
  induction s as [|c s IH]; simpl; [reflexivity|].
  destruct (rstrip s) as [|d r] eqn:Hr.
  - destruct (isspace c) eqn:Hc; simpl; [reflexivity|now rewrite Hc].
  - simpl in *. now rewrite IH.
Qed.

Lemma lstrip_head (s : string) :
  lstrip s = "" \/ exists c r, lstrip s = String c r /\ isspace c = false.
Proof.
  induction s as [|c s IH]; simpl; [now left|].
  destruct (isspace c) eqn:Hc; [exact IH|]. right. now exists c, s.
Qed.

Lemma rstrip_head (c : ascii) (r : string) :
  isspace c = false -> exists r', rstrip (String c r) = String c r'.
Proof.
  intros Hc. simpl. destruct (rstrip r); rewrite ?Hc; eauto.
Qed.

Lemma strip_idempotent (s : string) : strip (strip s) = strip s.
Proof.
  unfold strip. destruct (lstrip_head s) as [->|(c & r & -> & Hc)];
    [reflexivity|].
  destruct (rstrip_head c r Hc) as (r' & Hr). rewrite Hr.
  cbn [lstrip]. rewrite Hc, <- Hr. apply rstrip_idempotent.
Qed.

End StripFacts.

Section SameCandidate.

Variable urlparse : string -> option Urllib.ParseResult.
Variable session : Session.
Variables (base : string) (tok : json) (verify : bool).

Lemma resolve_same_candidate (r1 r2 : string) (log : list Request) :
  candidate_of urlparse r1 = candidate_of urlparse r2 ->
  snd (resolve_dashboard_uuid urlparse session base tok r1 verify log)
  = snd (resolve_dashboard_uuid urlparse session base tok r2 verify log)
  /\ forall d,
       fst (resolve_dashboard_uuid urlparse session base tok r1 verify log) = Ok d
       <-> fst (resolve_dashboard_uuid urlparse session base tok r2 verify log) = Ok d.
Proof.
  intros Hc. split; [now rewrite !resolve_calls, Hc|].
  intros d. unfold resolve_dashboard_uuid.
  fold (candidate_of urlparse r1). fold (candidate_of urlparse r2).
  rewrite Hc. destruct (_ && _); [reflexivity|].
  run_io. case_split; split; intros H; (discriminate || exact H).
Qed.

End SameCandidate.

(** C8, the claim as written fails: two references that differ in one
    trailing space only.  The first resolves through the lookup of dashboard
    7; the second names the empty last segment, is looked up under another
    URL and is not resolved. *)
Lemma trailing_space_changes_resolution :
  let ref1 := "https://bi.example.com/superset/dashboard/7/" in
  let ref2 := "https://bi.example.com/superset/dashboard/7/ " in
  let resolve ref :=
    resolve_dashboard_uuid Urllib.urlparse Samples.dashboard_7_only
      Samples.base (JStr "a1") ref true [] in
  PyStr.strip ref1 = PyStr.strip ref2
  /\ resolve ref1
     = (Ok (JStr Samples.uuid),
        [lookup_request Samples.base (JStr "a1") "7" true])
  /\ snd (resolve ref2) = [lookup_request Samples.base (JStr "a1") "" true]
  /\ fst (resolve ref2)
     = Raise (HTTPException 400
                ("Could not resolve dashboard UUID from '" ++ ref2
                 ++ "' (404): {" ++ PyStr.quoted "message" ++ ": "
                 ++ PyStr.quoted "Not found" ++ "}")).
Proof. vm_compute. repeat split. Qed.

(** C8, amended.  The candidate the resolver checks and looks up has no
    white space at either end.  Two references that are their own candidates
    before stripping (not URLs with a path segment taken out) and differ
    only in surrounding white space make the same upstream call and resolve
    to the same UUID when they resolve; a failure still quotes the
    reference as it was given.  A UUID-shaped string with white space around
    it, used as it is, is returned without the white space and without a
    lookup. *)
Theorem surrounding_whitespace_is_stripped
    (urlparse : string -> option Urllib.ParseResult) (session : Session)
    (base : string) (tok : json) (verify : bool) (log : list Request) :
  let resolve ref :=
    resolve_dashboard_uuid urlparse session base tok ref verify log in
  (forall ref,
      let candidate := PyStr.strip (extract_candidate_from_url urlparse ref) in
      PyStr.strip candidate = candidate
      /\ if uuid_shaped candidate then resolve ref = (Ok (JStr candidate), log)
         else snd (resolve ref)
              = (log ++ [lookup_request base tok candidate verify])%list)
  /\ (forall r1 r2,
        extract_candidate_from_url urlparse r1 = r1 ->
        extract_candidate_from_url urlparse r2 = r2 ->
        PyStr.strip r1 = PyStr.strip r2 ->
        snd (resolve r1) = snd (resolve r2)
        /\ forall d, fst (resolve r1) = Ok d <-> fst (resolve r2) = Ok d)
  /\ (forall ws1 s ws2,
        PyStr.all_space ws1 = true -> PyStr.all_space ws2 = true ->
        length s = 36%nat -> PyStr.count "-" s = 4%nat -> PyStr.strip s = s ->
        extract_candidate_from_url urlparse (ws1 ++ s ++ ws2) = ws1 ++ s ++ ws2 ->
        resolve (ws1 ++ s ++ ws2) = (Ok (JStr s), log)).
Proof.
  intros resolve. split; [|split].
  - intros ref candidate. split; [apply StripFacts.strip_idempotent|].
    fold (candidate_of urlparse ref) in candidate.
    destruct (uuid_shaped candidate) eqn:Hshape.
    + now apply resolve_uuid_shaped.
    + subst resolve. cbv beta. rewrite resolve_calls. fold candidate.
      now rewrite Hshape.
  - intros r1 r2 H1 H2 Hs. apply resolve_same_candidate.
    unfold candidate_of. now rewrite H1, H2.
  - intros ws1 s ws2 Hw1 Hw2 Hlen Hcount Hstrip Hextract.
    assert (Hcand : candidate_of urlparse (ws1 ++ s ++ ws2) = s).
    { unfold candidate_of. rewrite Hextract.
      now rewrite PyStrFacts.strip_pad. }
    subst resolve. cbv beta. rewrite <- Hcand at 2. apply resolve_uuid_shaped.
    rewrite Hcand. unfold uuid_shaped. now rewrite Hlen, Hcount.
Qed.

(** A UUID between a leading space and a trailing newline. *)
Lemma surrounding_whitespace_is_stripped_witness :
  resolve_dashboard_uuid Urllib.urlparse (Samples.scripted []) Samples.base
    (JStr "a1") (" " ++ Samples.uuid ++ String (ascii_of_nat 10) "") true []
  = (Ok (JStr Samples.uuid), []).
Proof.
  exact (proj2 (proj2
           (surrounding_whitespace_is_stripped Urllib.urlparse
              (Samples.scripted []) Samples.base (JStr "a1") true []))
         " " Samples.uuid (String (ascii_of_nat 10) "")
         eq_refl eq_refl eq_refl eq_refl eq_refl eq_refl).
Defined.

(** ** A lookup answer without a UUID (C10) *)

(** C10, the claim as written fails: the lookup is answered 200 with
    [{"result": "abc"}]; the payload has no result object and no [uuid], and
    the resolver raises [AttributeError], not the status-400 error. *)
Lemma string_result_crashes_lookup :
  let session :=
    Samples.scripted
      [Samples.answer 200
         ("{" ++ PyStr.quoted "result" ++ ": " ++ PyStr.quoted "abc" ++ "}")
         (JObj [("result", JStr "abc")])] in
  resolve_dashboard_uuid Urllib.urlparse session Samples.base (JStr "a1")
    "42" true []
  = (Raise (PyError "AttributeError" "'str' object has no attribute 'get'"),
     [lookup_request Samples.base (JStr "a1") "42" true]).
Proof. reflexivity. Qed.

(** C10, amended.  When the lookup is answered 200 with a JSON object whose
    [result] is absent, null or otherwise falsy, or is an object whose
    [uuid] is absent or falsy, the resolver raises the status-400 error that
    quotes the reference as given.  When [result] is a truthy value that is
    not an object, it raises [AttributeError] instead. *)
Theorem lookup_without_uuid_is_rejected
    (urlparse : string -> option Urllib.ParseResult) (session : Session)
    (base : string) (tok : json) (ref : string) (verify : bool)
    (log : list Request) (r : Response) (fields : dict) :
  let candidate := PyStr.strip (extract_candidate_from_url urlparse ref) in
  let rq := lookup_request base tok candidate verify in
  uuid_shaped candidate = false ->
  session log rq = Responded r ->
  resp_status r = 200 ->
  resp_json r = inr (JObj fields) ->
  (names_no_uuid fields = true ->
   resolve_dashboard_uuid urlparse session base tok ref verify log
   = (Raise (HTTPException 400
               ("Dashboard lookup returned no 'uuid' for '" ++ ref ++ "'.")),
      (log ++ [rq])%list))
  /\ (forall v,
        assoc "result" fields = Some v -> truthy v = true ->
        (forall o, v <> JObj o) ->
        resolve_dashboard_uuid urlparse session base tok ref verify log
        = (Raise (PyError "AttributeError"
                    ("'" ++ type_name v ++ "' object has no attribute 'get'")),
           (log ++ [rq])%list)).
Proof.
  intros candidate rq Hshape Hr Hs Hj.
  assert (Hrun :
    resolve_dashboard_uuid urlparse session base tok ref verify log
    = (match py_get (match assoc "result" fields with
                     | Some x => if truthy x then x else JObj []
                     | None => JObj []
                     end) "uuid" with
       | Ok uuid =>
           if truthy uuid then Ok uuid
           else Raise (HTTPException 400
                         ("Dashboard lookup returned no 'uuid' for '" ++ ref
                          ++ "'."))
       | Raise e => Raise e
       end, (log ++ [rq])%list)).
  { unfold resolve_dashboard_uuid. fold candidate.
    unfold uuid_shaped in Hshape. rewrite Hshape.
    unfold bind, lift, raise, ret, session_get, request, response_json.
    fold (lookup_request base tok candidate verify). fold rq.
    rewrite Hr. cbn [fst snd]. rewrite Hs, Hj. simpl.
    destruct (assoc "result" fields) as [x|]; simpl; [|reflexivity].
    destruct (truthy x); simpl.
    - destruct (py_get x "uuid") as [uuid|e]; simpl; [|reflexivity].
      now destruct (truthy uuid).
    - reflexivity. }
  rewrite Hrun. clear Hrun. split.
  - unfold names_no_uuid. intros Hn.
    destruct (assoc "result" fields) as [x|]; [|reflexivity].
    destruct x as [|b|z|nz shown|s|items|o];
      [simpl in Hn |- * ..|].
    + reflexivity.
    + apply negb_true_iff in Hn. now rewrite Hn.
    + apply negb_true_iff in Hn. now rewrite Hn.
    + apply negb_true_iff in Hn. now rewrite Hn.
    + apply negb_true_iff in Hn. now rewrite Hn.
    + destruct items; [reflexivity|discriminate].
    + destruct o as [|kv rest]; [reflexivity|].
      change (truthy (JObj (kv :: rest))) with true. cbv iota. unfold py_get.
      destruct (assoc "uuid" (kv :: rest)) as [u|]; [|reflexivity].
      apply negb_true_iff in Hn. now rewrite Hn.
  - intros v Hv Ht Hobj. rewrite Hv, Ht.
    destruct v; try reflexivity. now elim (Hobj fields0).
Qed.

(** Dashboard 42 is looked up and answered with [{"result": null}]. *)
Lemma lookup_without_uuid_is_rejected_witness :
  resolve_dashboard_uuid Urllib.urlparse
    (Samples.scripted
       [Samples.answer 200 ("{" ++ PyStr.quoted "result" ++ ": null}")
          (JObj [("result", JNull)])])
    Samples.base (JStr "a1") "42" true []
  = (Raise (HTTPException 400 "Dashboard lookup returned no 'uuid' for '42'."),
     [lookup_request Samples.base (JStr "a1") "42" true]).
Proof.
  exact (proj1
           (lookup_without_uuid_is_rejected Urllib.urlparse
              (Samples.scripted
                 [Samples.answer 200 ("{" ++ PyStr.quoted "result" ++ ": null}")
                    (JObj [("result", JNull)])])
              Samples.base (JStr "a1") "42" true []
              (mkResponse 200 (Some ("{" ++ PyStr.quoted "result" ++ ": null}"))
                 (inr (JObj [("result", JNull)])))
              [("result", JNull)] eq_refl eq_refl eq_refl eq_refl)
           eq_refl).
Defined.

(** * Further properties of the code *)

(** ** The three token-fetching steps, answer by answer *)

Lemma member_found (fields : dict) (key : string) (v : json) :
  (match assoc key fields with Some x => x | None => JNull end) = v ->
  truthy v = true -> assoc key fields = Some v.
Proof.
  destruct (assoc key fields) as [x|]; intros <- Ht; [reflexivity|discriminate].
Qed.

Lemma member_lacking (fields : dict) (key : string) :
  lacks key fields = true ->
  truthy (match assoc key fields with Some x => x | None => JNull end) = false.
Proof.
  unfold lacks. destruct (assoc key fields) as [x|]; [|reflexivity].
  apply negb_true_iff.
Qed.

Section StepOutcomes.

Variable session : Session.
Variables (base : string) (verify : bool).
Variable log : list Request.

(** X1.  The login step returns a token exactly when the login call is
    answered 200 with a JSON object whose [access_token] is truthy, and the
    token is that member; whatever the answer, it makes the one login call. *)
Theorem login_returns_token (u p : json) (provider : string) :
  let rq := login_request base u p provider verify in
  let run := login session base u p provider verify log in
  snd run = (log ++ [rq])%list
  /\ forall a,
       fst run = Ok a
       <-> exists r fields,
             session log rq = Responded r /\ resp_status r = 200
             /\ resp_json r = inr (JObj fields)
             /\ assoc "access_token" fields = Some a /\ truthy a = true.
Proof.
  intros rq run. split; [apply login_calls|].
  intros a. subst run. split.
  - intros Hrun. destruct (session log rq) as [r|name msg] eqn:Hr.
    2:{ rewrite (login_refused session base u p provider verify log _ _ Hr) in Hrun.
        discriminate. }
    destruct (Z.eq_dec (resp_status r) 200) as [Hs|Hs].
    2:{ rewrite (login_bad_status session base u p provider verify log r Hr Hs)
          in Hrun. discriminate. }
    rewrite (login_status_200 session base u p provider verify log r Hr Hs) in Hrun.
    destruct (resp_json r) as [msg|data] eqn:Hj; [discriminate|].
    destruct data; try discriminate. simpl in Hrun.
    destruct (truthy _) eqn:Ht; [|discriminate].
    injection Hrun as Ha. exists r, fields. repeat split; auto.
    + apply member_found; [exact Ha|now rewrite <- Ha].
    + now rewrite <- Ha.
  - intros (r & fields & Hr & Hs & Hj & Ha & Ht).
    rewrite (login_status_200 session base u p provider verify log r Hr Hs), Hj.
    simpl. now rewrite Ha, Ht.
Qed.

(** [get_csrf], by the answer to its call. *)
Lemma get_csrf_run (tok : json) :
  get_csrf session base tok verify log
  = (match session log (csrf_request base tok verify) with
     | Failed name msg => Raise (PyError name msg)
     | Responded r =>
         if resp_status r =? 200 then
           match resp_json r with
           | inl msg => Raise (PyError "JSONDecodeError" msg)
           | inr data =>
               match py_get data "result" with
               | Raise e => Raise e
               | Ok c =>
                   if truthy c then Ok c
                   else Raise (HTTPException 400 "CSRF response missing 'result'")
               end
           end
         else Raise (HTTPException 400
                       ("Fetching CSRF failed (" ++ PyStr.of_int (resp_status r)
                        ++ "): " ++ http_error_detail r))
     end, (log ++ [csrf_request base tok verify])%list).
Proof.
  unfold get_csrf, bind, lift, raise, ret, session_get, request, response_json.
  fold (csrf_request base tok verify).
  destruct (session log _) as [r|name msg]; cbn [fst snd]; [|reflexivity].
  destruct (resp_status r =? 200); cbn [negb]; [|reflexivity].
  destruct (resp_json r) as [msg|data]; [reflexivity|].
  destruct (py_get data "result") as [c|e]; [|reflexivity].
  now destruct (truthy c).
Qed.

(** [generate_guest_token], by the answer to its call. *)
Lemma generate_guest_token_run (tok csrf uuid rules user : json) :
  generate_guest_token session base tok csrf uuid rules user verify log
  = (match session log (issue_request base tok csrf uuid rules user verify) with
     | Failed name msg => Raise (PyError name msg)
     | Responded r =>
         if resp_status r =? 200 then
           match resp_json r with
           | inl msg => Raise (PyError "JSONDecodeError" msg)
           | inr data =>
               match py_get data "token" with
               | Raise e => Raise e
               | Ok t =>
                   if truthy t then Ok t
                   else Raise (HTTPException 400
                                 "guest_token response missing 'token'")
               end
           end
         else Raise (HTTPException 400
                       ("guest_token request failed ("
                        ++ PyStr.of_int (resp_status r) ++ "): "
                        ++ http_error_detail r))
     end, (log ++ [issue_request base tok csrf uuid rules user verify])%list).
Proof.
  unfold generate_guest_token, bind, lift, raise, ret, session_post, request,
    response_json.
  fold (issue_request base tok csrf uuid rules user verify).
  destruct (session log _) as [r|name msg]; cbn [fst snd]; [|reflexivity].
  destruct (resp_status r =? 200); cbn [negb]; [|reflexivity].
  destruct (resp_json r) as [msg|data]; [reflexivity|].
  destruct (py_get data "token") as [t|e]; [|reflexivity].
  now destruct (truthy t).
Qed.

End StepOutcomes.

(** Case analysis common to the steps that read one member of a JSON
    answer. *)
Ltac answer_cases Hrun r Hr Hs Hj :=
  match type of Hrun with
  | context [match ?o with Responded _ => _ | Failed _ _ => _ end] =>
      destruct o as [r|] eqn:Hr; [|discriminate Hrun];
      destruct (resp_status r =? 200) eqn:Hs; [|discriminate Hrun];
      apply Z.eqb_eq in Hs;
      destruct (resp_json r) as [|data] eqn:Hj; [discriminate Hrun|]
  end.

Section StepTheorems.

Variable session : Session.
Variables (base : string) (verify : bool).
Variable log : list Request.

(** X2.  The CSRF step makes exactly one call, a GET of the CSRF endpoint
    with the bearer token.  It returns a value exactly when that call is
    answered 200 with a JSON object whose [result] is truthy, and returns
    that member.  An answer with another status raises the status-400 error
    quoting the upstream status and body; a 200 answer whose [result] is
    absent or falsy raises the status-400 error "CSRF response missing
    'result'". *)
Theorem get_csrf_outcome (tok : json) :
  let rq := csrf_request base tok verify in
  let run := get_csrf session base tok verify log in
  snd run = (log ++ [rq])%list
  /\ (forall c,
        fst run = Ok c
        <-> exists r fields,
              session log rq = Responded r /\ resp_status r = 200
              /\ resp_json r = inr (JObj fields)
              /\ assoc "result" fields = Some c /\ truthy c = true)
  /\ (forall r,
        session log rq = Responded r -> resp_status r <> 200 ->
        fst run
        = Raise (HTTPException 400
                   ("Fetching CSRF failed (" ++ PyStr.of_int (resp_status r)
                    ++ "): " ++ http_error_detail r)))
  /\ (forall r fields,
        session log rq = Responded r -> resp_status r = 200 ->
        resp_json r = inr (JObj fields) -> lacks "result" fields = true ->
        fst run = Raise (HTTPException 400 "CSRF response missing 'result'")).
Proof.
  intros rq run. subst run. rewrite get_csrf_run. fold rq. cbn [fst snd].
  split; [reflexivity|split; [|split]].
  - intros c. split.
    + intros Hrun. answer_cases Hrun r Hr Hs Hj.
      destruct data; try discriminate. simpl in Hrun.
      destruct (truthy _) eqn:Ht; [|discriminate].
      injection Hrun as Hc. exists r, fields. repeat split; auto.
      * apply member_found; [exact Hc|now rewrite <- Hc].
      * now rewrite <- Hc.
    + intros (r & fields & -> & Hs & Hj & Hc & Ht).
      rewrite Hs, Hj. simpl. now rewrite Hc, Ht.
  - intros r -> Hs. apply Z.eqb_neq in Hs. now rewrite Hs.
  - intros r fields -> Hs Hj Hl. rewrite Hs, Hj. simpl.
    now rewrite (member_lacking _ _ Hl).
Qed.

(** X3.  The issuance step makes exactly one call, the POST of the
    guest-token endpoint.  It returns a value exactly when that call is
    answered 200 with a JSON object whose [token] is truthy, and returns that
    member.  An answer with another status raises the status-400 error
    quoting the upstream status and body; a 200 answer whose [token] is
    absent or falsy raises the status-400 error "guest_token response
    missing 'token'". *)
Theorem generate_guest_token_outcome (tok csrf uuid rules user : json) :
  let rq := issue_request base tok csrf uuid rules user verify in
  let run :=
    generate_guest_token session base tok csrf uuid rules user verify log in
  snd run = (log ++ [rq])%list
  /\ (forall t,
        fst run = Ok t
        <-> exists r fields,
              session log rq = Responded r /\ resp_status r = 200
              /\ resp_json r = inr (JObj fields)
              /\ assoc "token" fields = Some t /\ truthy t = true)
  /\ (forall r,
        session log rq = Responded r -> resp_status r <> 200 ->
        fst run
        = Raise (HTTPException 400
                   ("guest_token request failed ("
                    ++ PyStr.of_int (resp_status r) ++ "): "
                    ++ http_error_detail r)))
  /\ (forall r fields,
        session log rq = Responded r -> resp_status r = 200 ->
        resp_json r = inr (JObj fields) -> lacks "token" fields = true ->
        fst run
        = Raise (HTTPException 400 "guest_token response missing 'token'")).
Proof.
  intros rq run. subst run. rewrite generate_guest_token_run. fold rq.
  cbn [fst snd].
  split; [reflexivity|split; [|split]].
  - intros t. split.
    + intros Hrun. answer_cases Hrun r Hr Hs Hj.
      destruct data; try discriminate. simpl in Hrun.
      destruct (truthy _) eqn:Ht; [|discriminate].
      injection Hrun as Hc. exists r, fields. repeat split; auto.
      * apply member_found; [exact Hc|now rewrite <- Hc].
      * now rewrite <- Hc.
    + intros (r & fields & -> & Hs & Hj & Hc & Ht).
      rewrite Hs, Hj. simpl. now rewrite Hc, Ht.
  - intros r -> Hs. apply Z.eqb_neq in Hs. now rewrite Hs.
  - intros r fields -> Hs Hj Hl. rewrite Hs, Hj. simpl.
    now rewrite (member_lacking _ _ Hl).
Qed.

End StepTheorems.

(** A CSRF fetch answered 403. *)
Lemma get_csrf_outcome_witness :
  fst (get_csrf (Samples.scripted [Samples.forbidden]) Samples.base (JStr "a1")
         true [])
  = Raise (HTTPException 400
             ("Fetching CSRF failed (403): {" ++ PyStr.quoted "message" ++ ": "
              ++ PyStr.quoted "Forbidden" ++ "}")).
Proof.
  exact (proj1 (proj2 (proj2
           (get_csrf_outcome (Samples.scripted [Samples.forbidden])
              Samples.base true [] (JStr "a1"))))
         (mkResponse 403
            (Some ("{" ++ PyStr.quoted "message" ++ ": "
                   ++ PyStr.quoted "Forbidden" ++ "}"))
            (inr (JObj [("message", JStr "Forbidden")])))
         eq_refl ltac:(discriminate)).
Defined.

(** An issuance answered 200 with the empty object. *)
Lemma generate_guest_token_outcome_witness :
  fst (generate_guest_token
         (Samples.scripted [Samples.answer 200 "{}" (JObj [])]) Samples.base
         (JStr "a1") (JStr "c1") (JStr Samples.uuid) (JArr [])
         (JStr "guest_via_api") true [])
  = Raise (HTTPException 400 "guest_token response missing 'token'").
Proof.
  exact (proj2 (proj2 (proj2
           (generate_guest_token_outcome
              (Samples.scripted [Samples.answer 200 "{}" (JObj [])])
              Samples.base true [] (JStr "a1") (JStr "c1") (JStr Samples.uuid)
              (JArr []) (JStr "guest_via_api"))))
         (mkResponse 200 (Some "{}") (inr (JObj []))) []
         eq_refl eq_refl eq_refl eq_refl).
Defined.

(** ** The lookup of a dashboard *)

Section Lookup.

Variable urlparse : string -> option Urllib.ParseResult.
Variable session : Session.
Variables (base : string) (tok : json) (verify : bool).
Variable log : list Request.

(** [resolve_dashboard_uuid] for a candidate that is not UUID-shaped, by the
    answer to its call. *)
Lemma resolve_run (ref : string) :
  uuid_shaped (candidate_of urlparse ref) = false ->
  resolve_dashboard_uuid urlparse session base tok ref verify log
  = (match session log
             (lookup_request base tok (candidate_of urlparse ref) verify) with
     | Failed name msg => Raise (PyError name msg)
     | Responded r =>
         if resp_status r =? 200 then
           match resp_json r with
           | inl msg => Raise (PyError "JSONDecodeError" msg)
           | inr body =>
               match py_get body "result" with
               | Raise e => Raise e
               | Ok result =>
                   match py_get (if truthy result then result else JObj [])
                           "uuid" with
                   | Raise e => Raise e
                   | Ok uuid =>
                       if truthy uuid then Ok uuid
                       else Raise (HTTPException 400
                                     ("Dashboard lookup returned no 'uuid' for '"
                                      ++ ref ++ "'."))
                   end
               end
           end
         else Raise (HTTPException 400
                       ("Could not resolve dashboard UUID from '" ++ ref
                        ++ "' (" ++ PyStr.of_int (resp_status r) ++ "): "
                        ++ http_error_detail r))
     end,
     (log ++ [lookup_request base tok (candidate_of urlparse ref) verify])%list).
Proof.
  intros Hshape. unfold resolve_dashboard_uuid.
  fold (candidate_of urlparse ref). unfold uuid_shaped in Hshape.
  rewrite Hshape.
  unfold bind, lift, raise, ret, session_get, request, response_json.
  fold (lookup_request base tok (candidate_of urlparse ref) verify).
  destruct (session log _) as [r|name msg]; cbn [fst snd]; [|reflexivity].
  destruct (resp_status r =? 200); cbn [negb]; [|reflexivity].
  destruct (resp_json r) as [msg|body]; [reflexivity|].
  destruct (py_get body "result") as [result|e]; [|reflexivity].
  destruct (py_get _ "uuid") as [uuid|e]; [|reflexivity].
  now destruct (truthy uuid).
Qed.

(** X4.  For a reference whose candidate is not UUID-shaped, the resolver
    makes exactly one call, the GET of [/api/v1/dashboard/<candidate>].  It
    returns a value exactly when that call is answered 200 with a JSON
    object whose [result] is an object with a truthy [uuid], and returns
    that [uuid].  An answer with another status raises the status-400 error
    that quotes the reference as given, the upstream status and the body. *)
Theorem resolve_lookup_outcome (ref : string) :
  let candidate := PyStr.strip (extract_candidate_from_url urlparse ref) in
  let rq := lookup_request base tok candidate verify in
  let run := resolve_dashboard_uuid urlparse session base tok ref verify log in
  uuid_shaped candidate = false ->
  snd run = (log ++ [rq])%list
  /\ (forall u,
        fst run = Ok u
        <-> exists r fields o,
              session log rq = Responded r /\ resp_status r = 200
              /\ resp_json r = inr (JObj fields)
              /\ assoc "result" fields = Some (JObj o)
              /\ assoc "uuid" o = Some u /\ truthy u = true)
  /\ (forall r,
        session log rq = Responded r -> resp_status r <> 200 ->
        fst run
        = Raise (HTTPException 400
                   ("Could not resolve dashboard UUID from '" ++ ref ++ "' ("
                    ++ PyStr.of_int (resp_status r) ++ "): "
                    ++ http_error_detail r))).
Proof.
  intros candidate rq run Hshape. subst run.
  rewrite (resolve_run ref Hshape).
  change (candidate_of urlparse ref) with candidate. fold rq. cbn [fst snd].
  split; [reflexivity|split].
  - intros u. split.
    + intros Hrun. answer_cases Hrun r Hr Hs Hj.
      destruct data as [| | | | | |fields]; try discriminate.
      cbn [py_get] in Hrun.
      destruct (truthy (match assoc "result" fields with
                        | Some x => x | None => JNull end)) eqn:Htr;
        [|discriminate].
      set (result := match assoc "result" fields with
                     | Some x => x | None => JNull end) in *.
      destruct result as [| | | | | |o] eqn:Hres; try discriminate.
      cbn [py_get] in Hrun.
      destruct (truthy _) eqn:Ht in Hrun; [|discriminate].
      injection Hrun as Hu. exists r, fields, o. repeat split; auto.
      * apply member_found; [exact Hres|exact Htr].
      * apply member_found; [exact Hu|now rewrite <- Hu].
      * now rewrite <- Hu.
    + intros (r & fields & o & -> & Hs & Hj & Hres & Hu & Ht).
      rewrite Hs, Hj. cbn [Z.eqb Pos.eqb py_get]. rewrite Hres.
      assert (Ho : truthy (JObj o) = true).
      { destruct o; [discriminate|reflexivity]. }
      rewrite Ho. cbn [py_get]. now rewrite Hu, Ht.
  - intros r -> Hs. apply Z.eqb_neq in Hs. now rewrite Hs.
Qed.

End Lookup.

(** The numeric reference 42 is looked up and resolved. *)
Lemma resolve_lookup_outcome_witness :
  fst (resolve_dashboard_uuid Urllib.urlparse
         (Samples.scripted [Samples.lookup_ok]) Samples.base (JStr "a1") "42"
         true [])
  = Ok (JStr Samples.uuid).
Proof.
  apply (proj1 (proj2
           (resolve_lookup_outcome Urllib.urlparse
              (Samples.scripted [Samples.lookup_ok]) Samples.base (JStr "a1")
              true [] "42" eq_refl))).
  eexists _, _, _. repeat split; reflexivity.
Defined.

(** X5.  A dashboard URL whose last non-empty path segment is UUID-shaped
    once stripped resolves to that segment without any upstream call. *)
Theorem url_with_uuid_segment_needs_no_lookup
    (urlparse : string -> option Urllib.ParseResult) (session : Session)
    (base : string) (tok : json) (ref : string) (verify : bool)
    (log : list Request) (p : Urllib.ParseResult) (seg : string) :
  urlparse ref = Some p -> absolute_url p ->
  last_nonempty_segment (Urllib.path p) seg ->
  uuid_shaped (PyStr.strip seg) = true ->
  resolve_dashboard_uuid urlparse session base tok ref verify log
  = (Ok (JStr (PyStr.strip seg)), log).
Proof.
  intros Hp Habs (before & after & Hsplit & Hseg & Hafter) Hshape.
  assert (Hcand : candidate_of urlparse ref = PyStr.strip seg).
  { unfold candidate_of. rewrite (extract_absolute urlparse ref p Hp Habs).
    now rewrite (last_segment_found _ _ _ _ Hsplit Hseg Hafter). }
  rewrite <- Hcand. apply resolve_uuid_shaped. now rewrite Hcand.
Qed.

Lemma url_with_uuid_segment_needs_no_lookup_witness :
  resolve_dashboard_uuid Urllib.urlparse (Samples.scripted []) Samples.base
    (JStr "a1")
    "https://bi.example.com/superset/dashboard/11111111-2222-3333-4444-555555555555/"
    true []
  = (Ok (JStr Samples.uuid), []).
Proof.
  refine (url_with_uuid_segment_needs_no_lookup Urllib.urlparse
            (Samples.scripted []) Samples.base (JStr "a1")
            "https://bi.example.com/superset/dashboard/11111111-2222-3333-4444-555555555555/"
            true []
            (Urllib.mkParseResult "https" "bi.example.com"
               "/superset/dashboard/11111111-2222-3333-4444-555555555555/"
               "" "" "")
            Samples.uuid eq_refl _ _ eq_refl).
  - split; discriminate.
  - exists [""; "superset"; "dashboard"], [""].
    split; [reflexivity|]. split; [discriminate|]. repeat constructor.
Defined.

(** ** The token endpoint from end to end *)

Lemma answers_login (session : Session) (base : string) (u p : json)
    (provider : string) (verify : bool) (log : list Request) (a : json) :
  answers session log (login_request base u p provider verify)
    "access_token" a ->
  login session base u p provider verify log
  = (Ok a, (log ++ [login_request base u p provider verify])%list).
Proof.
  intros H.
  pose proof (login_returns_token session base verify log u p provider)
    as [Hsnd Hfst].
  apply Hfst in H. cbv zeta in Hsnd.
  destruct (login _ _ _ _ _ _ _) as [res l1]. simpl in *. now subst.
Qed.

Lemma answers_csrf (session : Session) (base : string) (a : json)
    (verify : bool) (log : list Request) (c : json) :
  answers session log (csrf_request base a verify) "result" c ->
  get_csrf session base a verify log
  = (Ok c, (log ++ [csrf_request base a verify])%list).
Proof.
  intros (r & fields & Hr & Hs & Hj & Hc & Ht).
  rewrite get_csrf_run, Hr, Hs, Hj. simpl. now rewrite Hc, Ht.
Qed.

Lemma answers_issue (session : Session) (base : string)
    (a c d rules user : json) (verify : bool) (log : list Request) (t : json) :
  answers session log (issue_request base a c d rules user verify) "token" t ->
  generate_guest_token session base a c d rules user verify log
  = (Ok t, (log ++ [issue_request base a c d rules user verify])%list).
Proof.
  intros (r & fields & Hr & Hs & Hj & Hc & Ht).
  rewrite generate_guest_token_run, Hr, Hs, Hj. simpl. now rewrite Hc, Ht.
Qed.

(** X6.  [POST /generate-token] from end to end.  With a configuration that
    validates, a login answered with the token [a], a CSRF fetch answered
    with [c], a reference that resolves to the string [d] and an issuance
    answered with the string [t], the route answers
    [{token: t, dashboard_uuid: d, message: "Guest token generated
    successfully"}]; the upstream calls are those of login, CSRF, the
    resolver's and the issuance call, which carries [d], the selected rules
    and the requested user name. *)
Theorem generate_token_end_to_end
    (urlparse : string -> option Urllib.ParseResult)
    (json_loads : string -> Decoding) (session : Session)
    (body : RequestBody) (cls cls' config : Config) (base : string)
    (log l3 : list Request) (a c : json) (d t : string) :
  let request := parse_GuestTokenRequest body in
  let v := VERIFY_SSL config in
  let L := login_request base (py_opt_str (SUPERSET_USERNAME config))
             (py_opt_str (SUPERSET_PASSWORD config))
             (SUPERSET_LOGIN_PROVIDER config) v in
  let C := csrf_request base a v in
  let I := issue_request base a c (JStr d) (selected_rls request config)
             (py_opt_str (username request)) v in
  get_config json_loads cls = (Ok config, cls') ->
  base_url config = Ok base ->
  answers session log L "access_token" a ->
  answers session (log ++ [L]) C "result" c ->
  resolve_dashboard_uuid urlparse session base a (dashboard request) v
    (log ++ [L; C])%list = (Ok (JStr d), l3) ->
  answers session l3 I "token" (JStr t) ->
  app urlparse json_loads session (POST_generate_token body) cls log
  = (Ok (JObj [("token", JStr t); ("dashboard_uuid", JStr d);
               ("message", JStr "Guest token generated successfully")]),
     cls', (l3 ++ [I])%list).
Proof.
  intros request v L C I Hcfg Hbase HL HC HR HI.
  subst request v L C I.
  cbn [app]. rewrite Hcfg.
  rewrite (endpoint_cascade urlparse session _ config base Hbase).
  rewrite (answers_login _ _ _ _ _ _ _ _ HL). cbv beta iota.
  rewrite (answers_csrf _ _ _ _ _ _ HC). cbv beta iota.
  rewrite <- app_assoc. cbn [List.app].
  rewrite HR. cbv beta iota.
  rewrite (answers_issue _ _ _ _ _ _ _ _ _ _ HI).
  reflexivity.
Qed.

(** The scenario of the specification: reference 42, token gt-xyz. *)
Lemma generate_token_end_to_end_witness :
  app Urllib.urlparse Samples.json_loads Samples.superset
    (POST_generate_token (Samples.body "42")) (Config_class Samples.env) []
  = (Ok (JObj [("token", JStr "gt-xyz"); ("dashboard_uuid", JStr Samples.uuid);
               ("message", JStr "Guest token generated successfully")]),
     Samples.config,
     [login_request Samples.base (JStr "svc") (JStr "secret") "db" true;
      csrf_request Samples.base (JStr "a1") true;
      lookup_request Samples.base (JStr "a1") "42" true;
      issue_request Samples.base (JStr "a1") (JStr "c1") (JStr Samples.uuid)
        (JArr []) (JStr "guest_via_api") true]).
Proof.
  refine (generate_token_end_to_end Urllib.urlparse Samples.json_loads
            Samples.superset (Samples.body "42") (Config_class Samples.env)
            Samples.config Samples.config Samples.base [] _
            (JStr "a1") (JStr "c1") Samples.uuid "gt-xyz"
            eq_refl eq_refl _ _ eq_refl _);
    eexists _, _; repeat split; reflexivity.
Defined.

(** ** What an endpoint can raise *)

Section StepStatus.

Variable urlparse : string -> option Urllib.ParseResult.
Variable session : Session.
Variables (base : string) (verify : bool).
Variable log : list Request.

Lemma login_run (u p : json) (provider : string) :
  login session base u p provider verify log
  = (match session log (login_request base u p provider verify) with
     | Failed name msg => Raise (PyError name msg)
     | Responded r =>
         if resp_status r =? 200 then
           match resp_json r with
           | inl msg => Raise (PyError "JSONDecodeError" msg)
           | inr data =>
               match py_get data "access_token" with
               | Raise e => Raise e
               | Ok token =>
                   if truthy token then Ok token
                   else Raise (HTTPException 400
                                 "Login succeeded but no access_token returned")
               end
           end
         else Raise (HTTPException 400
                       ("Login failed (" ++ PyStr.of_int (resp_status r)
                        ++ "): " ++ http_error_detail r))
     end, (log ++ [login_request base u p provider verify])%list).
Proof.
  unfold login, bind, lift, raise, ret, session_post, request, response_json.
  fold (login_request base u p provider verify).
  destruct (session log _) as [r|name msg]; cbn [fst snd]; [|reflexivity].
  destruct (resp_status r =? 200); cbn [negb]; [|reflexivity].
  destruct (resp_json r) as [msg|data]; [reflexivity|].
  destruct (py_get data "access_token") as [c|e]; [|reflexivity].
  now destruct (truthy c).
Qed.

Lemma py_get_raises (v : json) (key : string) (s : Z) (d : string) :
  py_get v key <> Raise (HTTPException s d).
Proof. destruct v; discriminate. Qed.

Lemma login_raises_400 (u p : json) (provider : string) (s : Z) (d : string) :
  fst (login session base u p provider verify log) = Raise (HTTPException s d) ->
  s = 400.
Proof.
  rewrite login_run. cbn [fst]. intros H.
  destruct (session log _) as [r|]; [|discriminate].
  destruct (resp_status r =? 200); [|now injection H as <- _].
  destruct (resp_json r) as [|data]; [discriminate|].
  destruct (py_get data "access_token") eqn:Hg;
    [|injection H as ->; now elim (py_get_raises _ _ _ _ Hg)].
  destruct (truthy a); [discriminate|now injection H as <- _].
Qed.

Lemma get_csrf_raises_400 (tok : json) (s : Z) (d : string) :
  fst (get_csrf session base tok verify log) = Raise (HTTPException s d) ->
  s = 400.
Proof.
  rewrite get_csrf_run. cbn [fst]. intros H.
  destruct (session log _) as [r|]; [|discriminate].
  destruct (resp_status r =? 200); [|now injection H as <- _].
  destruct (resp_json r) as [|data]; [discriminate|].
  destruct (py_get data "result") eqn:Hg;
    [|injection H as ->; now elim (py_get_raises _ _ _ _ Hg)].
  destruct (truthy a); [discriminate|now injection H as <- _].
Qed.

Lemma generate_guest_token_raises_400 (tok csrf uuid rules user : json)
    (s : Z) (d : string) :
  fst (generate_guest_token session base tok csrf uuid rules user verify log)
  = Raise (HTTPException s d) ->
  s = 400.
Proof.
  rewrite generate_guest_token_run. cbn [fst]. intros H.
  destruct (session log _) as [r|]; [|discriminate].
  destruct (resp_status r =? 200); [|now injection H as <- _].
  destruct (resp_json r) as [|data]; [discriminate|].
  destruct (py_get data "token") eqn:Hg;
    [|injection H as ->; now elim (py_get_raises _ _ _ _ Hg)].
  destruct (truthy a); [discriminate|now injection H as <- _].
Qed.

Lemma resolve_raises_400 (tok : json) (ref : string) (s : Z) (d : string) :
  fst (resolve_dashboard_uuid urlparse session base tok ref verify log)
  = Raise (HTTPException s d) ->
  s = 400.
Proof.
  destruct (uuid_shaped (candidate_of urlparse ref)) eqn:Hshape.
  { now rewrite (resolve_uuid_shaped urlparse session base tok ref verify log Hshape). }
  rewrite (resolve_run urlparse session base tok verify log ref Hshape).
  cbn [fst]. intros H.
  destruct (session log _) as [r|]; [|discriminate].
  destruct (resp_status r =? 200); [|now injection H as <- _].
  destruct (resp_json r) as [|body]; [discriminate|].
  destruct (py_get body "result") eqn:Hg;
    [|injection H as ->; now elim (py_get_raises _ _ _ _ Hg)].
  destruct (py_get _ "uuid") eqn:Hu in H;
    [|injection H as ->; now elim (py_get_raises _ _ _ _ Hu)].
  destruct (truthy a0); [discriminate|now injection H as <- _].
Qed.

End StepStatus.

Lemma surfaced_400_or_500 (e : exn) :
  (forall s d, e = HTTPException s d -> s = 400) -> http_400_or_500 (surfaced e).
Proof.
  intros H. destruct e as [s d|name msg]; simpl.
  - exists d. left. now rewrite (H s d eq_refl).
  - eexists. right. reflexivity.
Qed.

(** [get_dashboard_info] as a cascade over the results of its two steps. *)
Lemma dashboard_info_cascade
    (urlparse : string -> option Urllib.ParseResult) (session : Session)
    (dashboard_id : string) (config : Config) (base : string)
    (log : list Request) :
  base_url config = Ok base ->
  get_dashboard_info urlparse session dashboard_id config log
  = match login session base (py_opt_str (SUPERSET_USERNAME config))
            (py_opt_str (SUPERSET_PASSWORD config))
            (SUPERSET_LOGIN_PROVIDER config) (VERIFY_SSL config) log with
    | (Raise e, l1) => (Raise (surfaced e), l1)
    | (Ok a, l1) =>
        match resolve_dashboard_uuid urlparse session base a dashboard_id
                (VERIFY_SSL config) l1 with
        | (Raise e, l2) => (Raise (surfaced e), l2)
        | (Ok d, l2) =>
            (Ok (JObj [("dashboard_id", JStr dashboard_id);
                       ("dashboard_uuid", d);
                       ("message", JStr "Dashboard UUID resolved successfully")]),
             l2)
        end
    end.
Proof.
  intros Hbase.
  unfold get_dashboard_info, try_except, bind, lift, raise, ret.
  rewrite Hbase.
  destruct (login _ _ _ _ _ _ _) as [[a|e] l1]; [|reflexivity].
  destruct (resolve_dashboard_uuid _ _ _ _ _ _ _) as [[d|e] l2]; reflexivity.
Qed.

Lemma base_url_raises (config : Config) (e : exn) :
  base_url config = Raise e -> exists name msg, e = PyError name msg.
Proof.
  unfold base_url. destruct (SUPERSET_URL config); [discriminate|].
  intros H. injection H as <-. eauto.
Qed.

Lemma token_endpoint_raises
    (urlparse : string -> option Urllib.ParseResult) (session : Session)
    (request : GuestTokenRequest) (config : Config) (log : list Request)
    (e : exn) :
  fst (generate_guest_token_endpoint urlparse session request config log)
  = Raise e ->
  http_400_or_500 e.
Proof.
  destruct (base_url config) as [base|e0] eqn:Hbase.
  2:{ unfold generate_guest_token_endpoint, try_except, bind, lift, raise.
      rewrite Hbase. cbn [fst]. intros H. injection H as <-.
      destruct (base_url_raises _ _ Hbase) as (name & msg & ->).
      eexists. right. reflexivity. }
  rewrite (endpoint_cascade urlparse session request config base Hbase).
  destruct (login _ _ _ _ _ _ _) as [[a|e1] l1] eqn:H1; cbn [fst].
  2:{ intros H. injection H as <-. apply surfaced_400_or_500. intros s0 d0 ->.
      eapply login_raises_400. rewrite H1. reflexivity. }
  destruct (get_csrf _ _ _ _ _) as [[c|e2] l2] eqn:H2; cbn [fst].
  2:{ intros H. injection H as <-. apply surfaced_400_or_500. intros s0 d0 ->.
      eapply get_csrf_raises_400. rewrite H2. reflexivity. }
  destruct (resolve_dashboard_uuid _ _ _ _ _ _ _) as [[d|e3] l3] eqn:H3;
    cbn [fst].
  2:{ intros H. injection H as <-. apply surfaced_400_or_500. intros s0 d0 ->.
      eapply resolve_raises_400. rewrite H3. reflexivity. }
  destruct (generate_guest_token _ _ _ _ _ _ _ _ _) as [[t|e4] l4] eqn:H4;
    cbn [fst].
  2:{ intros H. injection H as <-. apply surfaced_400_or_500. intros s0 d0 ->.
      eapply generate_guest_token_raises_400. rewrite H4. reflexivity. }
  unfold new_GuestTokenResponse.
  destruct t; try (intros H; injection H as <-; eexists; right; reflexivity).
  destruct d; try (intros H; injection H as <-; eexists; right; reflexivity).
  discriminate.
Qed.

Lemma dashboard_info_raises
    (urlparse : string -> option Urllib.ParseResult) (session : Session)
    (dashboard_id : string) (config : Config) (log : list Request) (e : exn) :
  fst (get_dashboard_info urlparse session dashboard_id config log) = Raise e ->
  http_400_or_500 e.
Proof.
  destruct (base_url config) as [base|e0] eqn:Hbase.
  2:{ unfold get_dashboard_info, try_except, bind, lift, raise.
      rewrite Hbase. cbn [fst]. intros H. injection H as <-.
      destruct (base_url_raises _ _ Hbase) as (name & msg & ->).
      eexists. right. reflexivity. }
  rewrite (dashboard_info_cascade urlparse session dashboard_id config base log
             Hbase).
  destruct (login _ _ _ _ _ _ _) as [[a|e1] l1] eqn:H1; cbn [fst].
  2:{ intros H. injection H as <-. apply surfaced_400_or_500. intros s0 d0 ->.
      eapply login_raises_400. rewrite H1. reflexivity. }
  destruct (resolve_dashboard_uuid _ _ _ _ _ _ _) as [[d|e3] l3] eqn:H3;
    cbn [fst]; [discriminate|].
  intros H. injection H as <-. apply surfaced_400_or_500. intros s0 d0 ->.
  eapply resolve_raises_400. rewrite H3. reflexivity.
Qed.

Lemma get_config_raises (json_loads : string -> Decoding)
    (cls : Config) (e : exn) :
  fst (get_config json_loads cls) = Raise e ->
  (exists detail, e = HTTPException 500 detail)
  \/ decoder_exception json_loads cls e.
Proof.
  unfold get_config, validate, decoder_exception, settings_present.
  destruct (_ || _); cbn [fst]; [intros H; injection H as <-; eauto|].
  destruct (RLS_JSON cls) eqn:Hr; try rewrite Hr;
    try (cbn [fst]; intros H; injection H as <-; eauto; fail);
    try discriminate.
  destruct (json_loads s) as [v|msg|name msg] eqn:Hj.
  - cbn [RLS_JSON set_RLS_JSON].
    destruct v; cbn [fst]; try discriminate; intros H; injection H as <-; eauto.
  - cbn [fst]. intros H. injection H as <-. eauto.
  - cbn [fst]. intros H. injection H as <-. right.
    split; [reflexivity|]. exists s, name, msg. auto.
Qed.

(** X7.  For a request whose body passed validation: an exception that
    leaves [generate_guest_token_endpoint] or [get_dashboard_info] is always
    an [HTTPException] with status code 400 or 500, whatever the upstream
    does; an exception that leaves a route is such an [HTTPException], or
    else an exception other than [JSONDecodeError] that [json.loads] raised
    while [Config.validate] decoded [RLS_JSON], which nothing catches. *)
Theorem route_exceptions_are_classified
    (urlparse : string -> option Urllib.ParseResult)
    (json_loads : string -> Decoding) (session : Session) :
  (forall request config log e,
      fst (generate_guest_token_endpoint urlparse session request config log)
      = Raise e ->
      http_400_or_500 e)
  /\ (forall dashboard_id config log e,
        fst (get_dashboard_info urlparse session dashboard_id config log)
        = Raise e ->
        http_400_or_500 e)
  /\ (forall rq cls log e,
        fst (fst (app urlparse json_loads session rq cls log)) = Raise e ->
        http_400_or_500 e \/ decoder_exception json_loads cls e).
Proof.
  split; [|split].
  - intros request config log e. apply token_endpoint_raises.
  - intros dashboard_id config log e. apply dashboard_info_raises.
  - intros rq cls log e H.
    destruct rq; cbn [app] in H; try discriminate.
    + destruct (get_config json_loads cls) as [[config|e0] cls'] eqn:Hc.
      2:{ cbn [fst] in H. injection H as <-.
          destruct (get_config_raises json_loads cls e0) as [(d & ->)|Hd];
            [now rewrite Hc| |now right].
          left. exists d. now right. }
      destruct (generate_guest_token_endpoint _ _ _ _ _) as [[r|e1] l] eqn:He;
        cbn [fst] in H; [discriminate|]. injection H as <-.
      left. eapply token_endpoint_raises. rewrite He. reflexivity.
    + destruct (get_config json_loads cls) as [[config|e0] cls'] eqn:Hc.
      2:{ cbn [fst] in H. injection H as <-.
          destruct (get_config_raises json_loads cls e0) as [(d & ->)|Hd];
            [now rewrite Hc| |now right].
          left. exists d. now right. }
      destruct (get_dashboard_info _ _ _ _ _) as [[r|e1] l] eqn:He;
        cbn [fst] in H; [discriminate|]. injection H as <-.
      left. eapply dashboard_info_raises. rewrite He. reflexivity.
Qed.

(** A login that cannot connect: the endpoint raises a status-500
    exception. *)
Lemma route_exceptions_are_classified_witness :
  http_400_or_500 (HTTPException 500 "Internal server error: connection refused").
Proof.
  exact (proj1
           (route_exceptions_are_classified Urllib.urlparse Samples.json_loads
              (Samples.scripted []))
           (parse_GuestTokenRequest (Samples.body "42")) Samples.config []
           (HTTPException 500 "Internal server error: connection refused")
           eq_refl).
Defined.

(** ** The dashboard-information endpoint *)

Lemma dashboard_info_calls
    (urlparse : string -> option Urllib.ParseResult) (session : Session)
    (dashboard_id : string) (config : Config) (base : string)
    (log : list Request) :
  base_url config = Ok base ->
  exists a,
    let L := login_request base (py_opt_str (SUPERSET_USERNAME config))
               (py_opt_str (SUPERSET_PASSWORD config))
               (SUPERSET_LOGIN_PROVIDER config) (VERIFY_SSL config) in
    let D := lookup_request base a (candidate_of urlparse dashboard_id)
               (VERIFY_SSL config) in
    snd (get_dashboard_info urlparse session dashboard_id config log)
    = (log ++ [L])%list
    \/ snd (get_dashboard_info urlparse session dashboard_id config log)
       = (log ++ [L; D])%list.
Proof.
  intros Hbase.
  rewrite (dashboard_info_cascade urlparse session dashboard_id config base log
             Hbase).
  match goal with
  | |- context [login ?s ?b ?u ?p ?pr ?v ?l] =>
      pose proof (login_calls s b v u p pr l) as HL;
      destruct (login s b u p pr v l) as [[a|e] l1]; simpl in HL; subst l1
  end.
  2:{ exists JNull. left. reflexivity. }
  exists a.
  match goal with
  | |- context [resolve_dashboard_uuid ?up ?s ?b ?a ?d ?v ?l] =>
      pose proof (resolve_calls up s b v a d l) as HR;
      destruct (resolve_dashboard_uuid up s b a d v l) as [[u|e] l2];
      simpl in HR; subst l2
  end.
  all: cbn [snd]; rewrite <- app_assoc; cbn [List.app];
    destruct (uuid_shaped _); cbn [List.app]; auto.
Qed.

(** X8.  [GET /dashboard/{id}] calls upstream for the login and then at most
    for the dashboard lookup: it never fetches a CSRF token and never asks
    for a guest token. *)
Theorem dashboard_info_never_issues
    (urlparse : string -> option Urllib.ParseResult) (session : Session)
    (dashboard_id : string) (config : Config) (base : string)
    (log : list Request) :
  base_url config = Ok base ->
  exists calls,
    snd (get_dashboard_info urlparse session dashboard_id config log)
    = (log ++ calls)%list
    /\ In (map (step_of base) calls) ordered_lookups
    /\ ~ In (Some Csrf) (map (step_of base) calls)
    /\ ~ In (Some Issue) (map (step_of base) calls).
Proof.
  intros Hbase.
  destruct (dashboard_info_calls urlparse session dashboard_id config base log
              Hbase) as (a & [H|H]);
    eexists; (split; [exact H|]); cbn [map];
    rewrite ?step_of_login, ?step_of_lookup; unfold ordered_lookups;
    cbn [In]; repeat split; auto;
    intros Hin; repeat (destruct Hin as [Hin|Hin]; try discriminate); exact Hin.
Qed.

Lemma dashboard_info_never_issues_witness :
  exists calls,
    snd (get_dashboard_info Urllib.urlparse
           (Samples.scripted [Samples.login_ok; Samples.lookup_ok]) "42"
           Samples.config [])
    = ([] ++ calls)%list
    /\ In (map (step_of Samples.base) calls) ordered_lookups
    /\ ~ In (Some Csrf) (map (step_of Samples.base) calls)
    /\ ~ In (Some Issue) (map (step_of Samples.base) calls).
Proof.
  exact (dashboard_info_never_issues Urllib.urlparse
           (Samples.scripted [Samples.login_ok; Samples.lookup_ok]) "42"
           Samples.config Samples.base [] eq_refl).
Defined.

(** X9.  [GET /dashboard/{id}] from end to end.  With a configuration that
    validates, a login answered with the token [a] and an identifier that
    resolves to [d], the route answers with the identifier as it was given,
    the resolved value and the message "Dashboard UUID resolved
    successfully". *)
Theorem dashboard_info_end_to_end
    (urlparse : string -> option Urllib.ParseResult)
    (json_loads : string -> Decoding) (session : Session)
    (dashboard_id : string) (cls cls' config : Config) (base : string)
    (log l2 : list Request) (a d : json) :
  let v := VERIFY_SSL config in
  let L := login_request base (py_opt_str (SUPERSET_USERNAME config))
             (py_opt_str (SUPERSET_PASSWORD config))
             (SUPERSET_LOGIN_PROVIDER config) v in
  get_config json_loads cls = (Ok config, cls') ->
  base_url config = Ok base ->
  answers session log L "access_token" a ->
  resolve_dashboard_uuid urlparse session base a dashboard_id v
    (log ++ [L])%list = (Ok d, l2) ->
  app urlparse json_loads session (GET_dashboard dashboard_id) cls log
  = (Ok (JObj [("dashboard_id", JStr dashboard_id); ("dashboard_uuid", d);
               ("message", JStr "Dashboard UUID resolved successfully")]),
     cls', l2).
Proof.
  intros v L Hcfg Hbase HL HR. subst v L.
  cbn [app]. rewrite Hcfg.
  rewrite (dashboard_info_cascade urlparse session dashboard_id config base log
             Hbase).
  rewrite (answers_login _ _ _ _ _ _ _ _ HL). cbv beta iota.
  rewrite HR. reflexivity.
Qed.

Lemma dashboard_info_end_to_end_witness :
  app Urllib.urlparse Samples.json_loads
    (Samples.scripted [Samples.login_ok; Samples.lookup_ok])
    (GET_dashboard "42") (Config_class Samples.env) []
  = (Ok (JObj [("dashboard_id", JStr "42");
               ("dashboard_uuid", JStr Samples.uuid);
               ("message", JStr "Dashboard UUID resolved successfully")]),
     Samples.config,
     [login_request Samples.base (JStr "svc") (JStr "secret") "db" true;
      lookup_request Samples.base (JStr "a1") "42" true]).
Proof.
  refine (dashboard_info_end_to_end Urllib.urlparse Samples.json_loads
            (Samples.scripted [Samples.login_ok; Samples.lookup_ok]) "42"
            (Config_class Samples.env) Samples.config Samples.config
            Samples.base [] _ (JStr "a1") (JStr Samples.uuid)
            eq_refl eq_refl _ eq_refl).
  eexists _, _; repeat split; reflexivity.
Defined.

(** ** What the upstream calls carry *)

Lemma authorized_csrf (base : string) (a : json) (v : bool) :
  authorized_by a (csrf_request base a v).
Proof. left. reflexivity. Qed.

Lemma authorized_lookup (base : string) (a : json) (c : string) (v : bool) :
  authorized_by a (lookup_request base a c v).
Proof. left. reflexivity. Qed.

Lemma authorized_issue (base : string) (a c d r g : json) (v : bool) :
  authorized_by a (issue_request base a c d r g v).
Proof. left. reflexivity. Qed.

(** X10.  The token a run logs in with is the one it uses afterwards: once
    the login step has returned the token [a], every further upstream call
    of the run, in either endpoint, carries the header
    [Authorization: Bearer <a>]; the login call itself carries no header. *)
Theorem later_calls_carry_login_token
    (urlparse : string -> option Urllib.ParseResult) (session : Session)
    (config : Config) (base : string) (log l1 : list Request) (a : json) :
  let L := login session base (py_opt_str (SUPERSET_USERNAME config))
             (py_opt_str (SUPERSET_PASSWORD config))
             (SUPERSET_LOGIN_PROVIDER config) (VERIFY_SSL config) in
  base_url config = Ok base ->
  L log = (Ok a, l1) ->
  (exists rq, l1 = (log ++ [rq])%list /\ req_headers rq = [])
  /\ (forall request,
        exists later,
          snd (generate_guest_token_endpoint urlparse session request config log)
          = (l1 ++ later)%list
          /\ Forall (authorized_by a) later)
  /\ (forall dashboard_id,
        exists later,
          snd (get_dashboard_info urlparse session dashboard_id config log)
          = (l1 ++ later)%list
          /\ Forall (authorized_by a) later).
Proof.
  intros L Hbase HL. subst L. split; [|split].
  - match type of HL with
    | login ?s ?b ?u ?p ?pr ?v ?l = _ =>
        pose proof (login_calls s b v u p pr l) as Hc;
        exists (login_request b u p pr v)
    end.
    rewrite HL in Hc. split; [exact Hc|reflexivity].
  - intros request.
    rewrite (endpoint_cascade urlparse session request config base Hbase), HL.
    pose proof (get_csrf_calls session base (VERIFY_SSL config) a l1) as HC.
    destruct (get_csrf _ _ _ _ _) as [[c|e] l2]; simpl in HC; subst l2.
    2:{ eexists. split; [reflexivity|]. repeat constructor. }
    match goal with
    | |- context [resolve_dashboard_uuid ?up ?s ?b ?a ?d ?v ?l] =>
        pose proof (resolve_calls up s b v a d l) as HR;
        destruct (resolve_dashboard_uuid up s b a d v l) as [[u|e] l3];
        simpl in HR; subst l3
    end.
    2:{ eexists. cbn [snd]. rewrite <- app_assoc. split; [reflexivity|].
        destruct (uuid_shaped _); repeat constructor. }
    match goal with
    | |- context [generate_guest_token ?s ?b ?a ?c ?d ?r ?g ?v ?l] =>
        pose proof (generate_guest_token_calls s b v a c d r g l) as HI;
        destruct (generate_guest_token s b a c d r g v l) as [[t|e] l4];
        simpl in HI; subst l4
    end.
    all: eexists; cbn [snd]; rewrite <- !app_assoc; (split; [reflexivity|]);
      destruct (uuid_shaped _); repeat constructor.
  - intros dashboard_id.
    rewrite (dashboard_info_cascade urlparse session dashboard_id config base
               log Hbase), HL.
    match goal with
    | |- context [resolve_dashboard_uuid ?up ?s ?b ?a ?d ?v ?l] =>
        pose proof (resolve_calls up s b v a d l) as HR;
        destruct (resolve_dashboard_uuid up s b a d v l) as [[u|e] l3];
        simpl in HR; subst l3
    end.
    all: eexists; cbn [snd]; (split; [reflexivity|]);
      destruct (uuid_shaped _); repeat constructor.
Qed.

Lemma later_calls_carry_login_token_witness :
  exists later,
    snd (generate_guest_token_endpoint Urllib.urlparse Samples.superset
           (parse_GuestTokenRequest (Samples.body "42")) Samples.config [])
    = ([login_request Samples.base (JStr "svc") (JStr "secret") "db" true]
       ++ later)%list
    /\ Forall (authorized_by (JStr "a1")) later.
Proof.
  exact (proj1 (proj2
           (later_calls_carry_login_token Urllib.urlparse Samples.superset
              Samples.config Samples.base [] _ (JStr "a1") eq_refl eq_refl))
         (parse_GuestTokenRequest (Samples.body "42"))).
Defined.

(** X11.  No retry and a bounded wait: a run of the token endpoint makes at
    most four upstream calls, a run of the dashboard-information endpoint at
    most two, and every one of them is made with [timeout=20]. *)
Theorem calls_are_bounded_and_timed
    (urlparse : string -> option Urllib.ParseResult) (session : Session)
    (config : Config) (log : list Request) :
  (forall request,
      exists calls,
        snd (generate_guest_token_endpoint urlparse session request config log)
        = (log ++ calls)%list
        /\ (List.length calls <= 4)%nat
        /\ Forall (fun rq => timeout rq = 20) calls)
  /\ (forall dashboard_id,
        exists calls,
          snd (get_dashboard_info urlparse session dashboard_id config log)
          = (log ++ calls)%list
          /\ (List.length calls <= 2)%nat
          /\ Forall (fun rq => timeout rq = 20) calls).
Proof.
  destruct (base_url config) as [base|e] eqn:Hbase.
  2:{ split; intros x; exists [];
        unfold generate_guest_token_endpoint, get_dashboard_info, try_except,
          bind, lift, raise; rewrite Hbase; cbn [snd];
        rewrite app_nil_r; repeat split; auto; simpl; lia. }
  split.
  - intros request.
    destruct (endpoint_calls urlparse session request config base Hbase log)
      as (a & c & d & calls & Hlog & Hin).
    exists calls. split; [exact Hlog|].
    cbv zeta in Hin. cbn [In] in Hin.
    destruct Hin as [H|[H|[H|[H|[H|[]]]]]]; subst calls;
      (split; [simpl; lia|repeat constructor]).
  - intros dashboard_id.
    destruct (dashboard_info_calls urlparse session dashboard_id config base log
                Hbase) as (a & [H|H]);
      eexists; (split; [exact H|]); (split; [simpl; lia|repeat constructor]).
Qed.

(** ** Validation of the configuration *)

Section Validation.

Variable json_loads : string -> Decoding.

Lemma validate_present (cls : Config) :
  settings_present cls = true ->
  validate json_loads cls
  = match RLS_JSON cls with
    | JStr s =>
        match json_loads s with
        | DecodeError msg =>
            (Raise (HTTPException 500 ("RLS_JSON is not valid JSON: " ++ msg)),
             cls)
        | DecoderRaised name msg => (Raise (PyError name msg), cls)
        | Decoded v =>
            (if is_list v then Ok tt
             else Raise (HTTPException 500 not_an_array),
             set_RLS_JSON cls v)
        end
    | v =>
        (if is_list v then Ok tt else Raise (HTTPException 500 not_an_array),
         cls)
    end.
Proof.
  unfold settings_present, validate. intros H. apply negb_true_iff in H.
  rewrite H.
  destruct (RLS_JSON cls) eqn:Hr; try (rewrite Hr; reflexivity).
  destruct (json_loads s) as [v|msg|name msg]; [|reflexivity..].
  cbn [RLS_JSON set_RLS_JSON]. destruct v; reflexivity.
Qed.

Lemma validate_absent (cls : Config) :
  settings_present cls = false ->
  exists detail, validate json_loads cls = (Raise (HTTPException 500 detail), cls).
Proof.
  unfold settings_present, validate. intros H. apply negb_false_iff in H.
  rewrite H. eauto.
Qed.

(** X12.  [Config.validate] succeeds exactly when the three required
    settings are present and non-empty and [RLS_JSON] is a list already or
    is a text that [json.loads] decodes to a list. *)
Theorem validate_succeeds_iff (cls : Config) :
  fst (validate json_loads cls) = Ok tt
  <-> settings_present cls = true
      /\ exists rules,
           RLS_JSON cls = JArr rules
           \/ exists s, RLS_JSON cls = JStr s /\ json_loads s = Decoded (JArr rules).
Proof.
  split.
  - intros H. destruct (settings_present cls) eqn:Hp.
    2:{ destruct (validate_absent cls Hp) as (d & Hv). rewrite Hv in H.
        discriminate. }
    split; [reflexivity|]. rewrite (validate_present cls Hp) in H.
    destruct (RLS_JSON cls) as [| | | |s|rules|] eqn:Hr; try discriminate.
    + destruct (json_loads s) as [v|msg|name msg] eqn:Hj; try discriminate.
      destruct v as [| | | | |rules|]; try discriminate.
      exists rules. right. exists s. auto.
    + exists rules. now left.
  - intros (Hp & rules & [Hr|(s & Hr & Hj)]);
      rewrite (validate_present cls Hp), Hr; [reflexivity|].
    now rewrite Hj.
Qed.

(** X13.  A validation that succeeds leaves [RLS_JSON] a list and every
    other attribute as it was; validating the class again succeeds and
    changes nothing, whatever [json.loads] would do: the text is decoded
    once, not on every request. *)
Theorem validated_class_is_stable (cls cls' : Config) :
  validate json_loads cls = (Ok tt, cls') ->
  is_list (RLS_JSON cls') = true
  /\ cls' = set_RLS_JSON cls (RLS_JSON cls')
  /\ forall json_loads', validate json_loads' cls' = (Ok tt, cls').
Proof.
  intros H. destruct (settings_present cls) eqn:Hp.
  2:{ destruct (validate_absent cls Hp) as (d & Hv). rewrite Hv in H.
      discriminate. }
  assert (Hstable : forall c, settings_present c = true ->
                              is_list (RLS_JSON c) = true ->
                              forall jl, validate jl c = (Ok tt, c)).
  { intros c Hc Hl jl. unfold settings_present in Hc.
    apply negb_true_iff in Hc. unfold validate. rewrite Hc.
    destruct (RLS_JSON c) eqn:Hr; try discriminate. now rewrite Hr. }
  rewrite (validate_present cls Hp) in H.
  destruct (RLS_JSON cls) as [| | | |s|rules|] eqn:Hr; try discriminate.
  - destruct (json_loads s) as [v|msg|name msg]; try discriminate.
    destruct (is_list v) eqn:Hl; [|discriminate].
    injection H as <-. cbn [RLS_JSON set_RLS_JSON].
    split; [exact Hl|]. split; [reflexivity|].
    apply Hstable; [exact Hp|exact Hl].
  - injection H as <-. rewrite Hr. split; [reflexivity|].
    split; [destruct cls; simpl in *; now subst|].
    apply Hstable; [exact Hp|now rewrite Hr].
Qed.

(** X14.  A default rule set that cannot be used stops both pipeline routes
    before any upstream call.  A text that [json.loads] rejects with
    [JSONDecodeError] raises a status-500 error that reports the decoder's
    message, and leaves the class as it was; a text that decodes to
    something else than a list raises the status-500 error that it is not
    an array, and the decoded value stays in the class; any other exception
    that [json.loads] raises leaves the route as it is, not as an
    [HTTPException], and leaves the class as it was. *)
Theorem unusable_rls_stops_before_upstream
    (urlparse : string -> option Urllib.ParseResult) (session : Session)
    (rq : HttpRequest) (cls : Config) (log : list Request) (s : string) :
  settings_present cls = true ->
  RLS_JSON cls = JStr s ->
  (exists body, rq = POST_generate_token body)
  \/ (exists dashboard_id, rq = GET_dashboard dashboard_id) ->
  match json_loads s with
  | DecodeError msg =>
      app urlparse json_loads session rq cls log
      = (Raise (HTTPException 500 ("RLS_JSON is not valid JSON: " ++ msg)),
         cls, log)
  | DecoderRaised name msg =>
      app urlparse json_loads session rq cls log
      = (Raise (PyError name msg), cls, log)
  | Decoded v =>
      is_list v = false ->
      app urlparse json_loads session rq cls log
      = (Raise (HTTPException 500 not_an_array), set_RLS_JSON cls v, log)
  end.
Proof.
  intros Hp Hr Hrq.
  pose proof (validate_present cls Hp) as Hv. rewrite Hr in Hv.
  destruct (json_loads s) as [v|msg|name msg].
  - intros Hl. rewrite Hl in Hv.
    destruct Hrq as [(body & ->)|(d & ->)];
      cbn [app]; unfold get_config; now rewrite Hv.
  - destruct Hrq as [(body & ->)|(d & ->)];
      cbn [app]; unfold get_config; now rewrite Hv.
  - destruct Hrq as [(body & ->)|(d & ->)];
      cbn [app]; unfold get_config; now rewrite Hv.
Qed.

(** X15.  Validation depends on what earlier requests left in the class.
    When the configured text decodes to a string that is itself the text of
    a list, the first validation fails, reporting that the value is not an
    array, and stores the decoded string; the next validation decodes that
    string and succeeds. *)
Theorem doubly_encoded_rls_passes_second_time
    (cls : Config) (s inner : string) (rules : list json) :
  settings_present cls = true ->
  RLS_JSON cls = JStr s ->
  json_loads s = Decoded (JStr inner) ->
  json_loads inner = Decoded (JArr rules) ->
  let cls1 := snd (validate json_loads cls) in
  fst (validate json_loads cls) = Raise (HTTPException 500 not_an_array)
  /\ validate json_loads cls1 = (Ok tt, set_RLS_JSON cls (JArr rules)).
Proof.
  intros Hp Hr Hs Hinner cls1. subst cls1.
  rewrite (validate_present cls Hp), Hr, Hs. cbn [fst snd is_list].
  split; [reflexivity|].
  rewrite validate_present by exact Hp.
  cbn [RLS_JSON set_RLS_JSON]. rewrite Hinner. reflexivity.
Qed.

End Validation.

Lemma validated_class_is_stable_witness :
  validate (fun _ => DecodeError "never called") Samples.config = (Ok tt, Samples.config).
Proof.
  exact (proj2 (proj2
           (validated_class_is_stable Samples.json_loads
              (Config_class Samples.env) Samples.config eq_refl))
         (fun _ => DecodeError "never called")).
Defined.

Lemma unusable_rls_stops_before_upstream_witness :
  let cls := set_RLS_JSON (Config_class Samples.env) (JStr "oops") in
  app Urllib.urlparse Samples.json_loads Samples.superset
    (POST_generate_token (Samples.body "42")) cls []
  = (Raise (HTTPException 500
              "RLS_JSON is not valid JSON: Expecting value: line 1 column 1 (char 0)"),
     cls, []).
Proof.
  exact (unusable_rls_stops_before_upstream Samples.json_loads Urllib.urlparse
           Samples.superset (POST_generate_token (Samples.body "42"))
           (set_RLS_JSON (Config_class Samples.env) (JStr "oops")) [] "oops"
           eq_refl eq_refl
           (or_introl (ex_intro _ (Samples.body "42") eq_refl))).
Defined.

(** A default rule set nested too deeply: the decoder's [RecursionError]
    leaves the route, before any upstream call. *)
Lemma deeply_nested_rls_escapes :
  let cls := set_RLS_JSON (Config_class Samples.env)
               (JStr MoreSamples.deep_text) in
  app Urllib.urlparse MoreSamples.json_loads_deep Samples.superset
    (POST_generate_token (Samples.body "42")) cls []
  = (Raise (PyError "RecursionError"
              "maximum recursion depth exceeded while decoding a JSON array from a unicode string"),
     cls, []).
Proof.
  intros cls. cbn [app]. unfold get_config.
  rewrite (validate_present MoreSamples.json_loads_deep cls eq_refl).
  change (RLS_JSON cls) with (JStr MoreSamples.deep_text). cbv iota.
  unfold MoreSamples.json_loads_deep. rewrite String.eqb_refl. reflexivity.
Qed.

Lemma doubly_encoded_rls_passes_second_time_witness :
  let cls := set_RLS_JSON (Config_class Samples.env)
               (JStr (PyStr.quoted "[]")) in
  fst (validate MoreSamples.json_loads cls)
  = Raise (HTTPException 500 not_an_array)
  /\ validate MoreSamples.json_loads (snd (validate MoreSamples.json_loads cls))
     = (Ok tt, set_RLS_JSON cls (JArr [])).
Proof.
  exact (doubly_encoded_rls_passes_second_time MoreSamples.json_loads
           (set_RLS_JSON (Config_class Samples.env) (JStr (PyStr.quoted "[]")))
           (PyStr.quoted "[]") "[]" [] eq_refl eq_refl eq_refl eq_refl).
Defined.

(** ** The base URL *)

Lemma endswith_drop_last (c : ascii) (u : string) :
  PyStr.endswith c u = true -> PyStr.drop_last u ++ String c "" = u.
Proof.
  induction u as [|d u IH]; [discriminate|].
  destruct u as [|e u'].
  - simpl. intros H. apply Ascii.eqb_eq in H. now subst.
  - intros H. change (String d (PyStr.drop_last (String e u') ++ String c "")
                      = String d (String e u')).
    f_equal. apply IH. exact H.
Qed.

Lemma endswith_snoc (c : ascii) (b : string) :
  PyStr.endswith c (b ++ String c "") = true.
Proof.
  induction b as [|d b IH]; simpl; [apply Ascii.eqb_refl|].
  destruct (b ++ String c "") eqn:Hb; [now destruct b|exact IH].
Qed.

Lemma drop_last_snoc (c : ascii) (b : string) :
  PyStr.drop_last (b ++ String c "") = b.
Proof.
  induction b as [|d b IH]; simpl; [reflexivity|].
  destruct (b ++ String c "") eqn:Hb; [now destruct b|now rewrite IH].
Qed.

(** X16.  The base URL is [SUPERSET_URL] without one trailing slash: a
    setting [b/] gives the base [b] (so [b//] gives [b/]), and a setting
    that does not end with a slash is the base as it is.  In both cases the
    base followed by the slash it may have lost is the setting again. *)
Theorem base_url_strips_one_slash (config : Config) (u : string) :
  SUPERSET_URL config = Some u ->
  exists base,
    base_url config = Ok base
    /\ (forall b, u = b ++ "/" -> base = b)
    /\ (PyStr.endswith "/" u = false -> base = u)
    /\ (PyStr.endswith "/" u = true -> base ++ "/" = u).
Proof.
  intros Hu. unfold base_url. rewrite Hu.
  eexists. split; [reflexivity|]. split; [|split].
  - intros b ->. now rewrite endswith_snoc, drop_last_snoc.
  - now intros ->.
  - intros H. rewrite H. now apply endswith_drop_last.
Qed.

Lemma base_url_strips_one_slash_witness :
  exists base,
    base_url Samples.config = Ok base
    /\ (forall b, "https://bi.example.com/" = b ++ "/" -> base = b)
    /\ (PyStr.endswith "/" "https://bi.example.com/" = false
        -> base = "https://bi.example.com/")
    /\ (PyStr.endswith "/" "https://bi.example.com/" = true
        -> base ++ "/" = "https://bi.example.com/").
Proof.
  exact (base_url_strips_one_slash Samples.config "https://bi.example.com/"
           eq_refl).
Defined.

(** ** The segment taken out of a URL *)

Lemma split_pieces_have_no_separator (c : ascii) (s piece : string) :
  In piece (PyStr.split c s) -> PyStr.count c piece = 0%nat.
Proof.
  revert piece. induction s as [|d s IH]; intros piece; simpl.
  - intros [<-|[]]. reflexivity.
  - destruct (Ascii.eqb d c) eqn:Hd.
    + intros [<-|H]; [reflexivity|now apply IH].
    + destruct (PyStr.split c s) as [|p ps] eqn:Hs.
      * intros [<-|[]]. simpl. now rewrite Hd.
      * intros [<-|H].
        -- simpl. rewrite Hd. apply IH. now left.
        -- apply IH. now right.
Qed.

Lemma last_opt_cons {A} (a : A) (m : list A) :
  last_opt (a :: m)
  = match last_opt m with Some y => Some y | None => Some a end.
Proof. unfold last_opt. simpl. now destruct (rev m). Qed.

Lemma last_opt_none {A} (m : list A) : last_opt m = None -> m = [].
Proof.
  unfold last_opt. destruct (rev m) eqn:H; [|discriminate].
  intros _. apply (f_equal (@rev A)) in H. now rewrite rev_involutive in H.
Qed.

Lemma filter_nil_all_empty (l : list string) :
  filter PyStr.nonempty l = [] -> Forall (fun s => s = "") l.
Proof.
  induction l as [|s l IH]; simpl; [constructor|].
  destruct s; simpl; [|discriminate]. intros H. constructor; auto.
Qed.

Lemma last_filter_decomposes (l : list string) (x : string) :
  last_opt (filter PyStr.nonempty l) = Some x ->
  exists before after,
    l = (before ++ x :: after)%list /\ x <> ""
    /\ Forall (fun s => s = "") after.
Proof.
  revert x. induction l as [|a l IH]; intros x; [discriminate|].
  simpl. destruct (PyStr.nonempty a) eqn:Ha.
  - rewrite last_opt_cons.
    destruct (last_opt (filter PyStr.nonempty l)) as [y|] eqn:Hl.
    + intros H. injection H as ->.
      destruct (IH x eq_refl) as (before & after & -> & Hx & Hafter).
      exists (a :: before), after. auto.
    + intros H. injection H as ->. exists [], l. split; [reflexivity|].
      split; [now apply nonempty_true|].
      apply filter_nil_all_empty. now apply last_opt_none.
  - intros H. destruct (IH x H) as (before & after & -> & Hx & Hafter).
    exists (a :: before), after. auto.
Qed.

(** X17.  When a reference parses as an absolute URL whose path has some
    non-empty segment, the candidate taken out of it is a last non-empty
    segment of the path: it is not empty and contains no slash. *)
Theorem extracted_segment_has_no_slash
    (urlparse : string -> option Urllib.ParseResult) (ref : string)
    (p : Urllib.ParseResult) :
  urlparse ref = Some p -> absolute_url p -> ~ no_segment (Urllib.path p) ->
  let candidate := extract_candidate_from_url urlparse ref in
  last_nonempty_segment (Urllib.path p) candidate
  /\ candidate <> ""
  /\ PyStr.count "/" candidate = 0%nat.
Proof.
  intros Hp Habs Hsome candidate. subst candidate.
  rewrite (extract_absolute urlparse ref p Hp Habs).
  destruct (last_opt _) as [seg|] eqn:Hlast.
  2:{ elim Hsome. apply filter_nil_all_empty. now apply last_opt_none. }
  destruct (last_filter_decomposes _ _ Hlast)
    as (before & after & Hsplit & Hseg & Hafter).
  split; [now exists before, after|]. split; [exact Hseg|].
  apply (split_pieces_have_no_separator "/" (Urllib.path p)).
  rewrite Hsplit. apply in_or_app. right. now left.
Qed.

Lemma extracted_segment_has_no_slash_witness :
  PyStr.count "/"
    (extract_candidate_from_url Urllib.urlparse
       "https://bi.example.com/superset/dashboard/42/?standalone=1")
  = 0%nat.
Proof.
  refine (proj2 (proj2
            (extracted_segment_has_no_slash Urllib.urlparse
               "https://bi.example.com/superset/dashboard/42/?standalone=1"
               (Urllib.mkParseResult "https" "bi.example.com"
                  "/superset/dashboard/42/" "" "standalone=1" "")
               eq_refl _ _))).
  - split; discriminate.
  - intros H.
    change (Forall (fun s => s = "") [""; "superset"; "dashboard"; "42"; ""])
      in H.
    apply Forall_inv_tail, Forall_inv in H. discriminate H.
Defined.

(** ** Defaults of the configuration *)

(** X18.  An environment that sets the three required variables to
    non-empty values and nothing else validates, given that [json.loads]
    decodes the default text [[]] to the empty list: the login provider is
    "db", TLS verification is on and the default rule set is empty. *)
Theorem minimal_environment_validates
    (json_loads : string -> Decoding) (env : Env) (url user pass : string) :
  env "SUPERSET_URL" = Some url -> env "SUPERSET_USERNAME" = Some user ->
  env "SUPERSET_PASSWORD" = Some pass ->
  url <> "" -> user <> "" -> pass <> "" ->
  env "SUPERSET_LOGIN_PROVIDER" = None -> env "VERIFY_SSL" = None ->
  env "RLS_JSON" = None ->
  json_loads "[]" = Decoded (JArr []) ->
  get_config json_loads (Config_class env)
  = (Ok (mkConfig (Some url) (Some user) (Some pass) "db" true (JArr [])),
     mkConfig (Some url) (Some user) (Some pass) "db" true (JArr [])).
Proof.
  intros Hu Hn Hp Hu' Hn' Hp' Hprov Hv Hr Hj.
  unfold get_config, validate, Config_class, getenv.
  rewrite Hu, Hn, Hp, Hprov, Hv, Hr.
  cbn [SUPERSET_URL SUPERSET_USERNAME SUPERSET_PASSWORD RLS_JSON unset].
  apply nonempty_true in Hu', Hn', Hp'. rewrite Hu', Hn', Hp'.
  cbn [negb orb]. rewrite Hj. reflexivity.
Qed.

Lemma minimal_environment_validates_witness :
  let env : Env := fun name =>
    if String.eqb name "SUPERSET_URL" then Some "https://bi.example.com"
    else if String.eqb name "SUPERSET_USERNAME" then Some "svc"
    else if String.eqb name "SUPERSET_PASSWORD" then Some "secret"
    else None in
  get_config Samples.json_loads (Config_class env)
  = (Ok (mkConfig (Some "https://bi.example.com") (Some "svc") (Some "secret")
           "db" true (JArr [])),
     mkConfig (Some "https://bi.example.com") (Some "svc") (Some "secret")
       "db" true (JArr [])).
Proof.
  intros env.
  apply (minimal_environment_validates Samples.json_loads env);
    (reflexivity || discriminate).
Defined.
